(** * Pomodoro sit/stand timer: session clock and position rotator

    A shallow embedding of the state logic of the React component
    [PomodoroTimer] (src/components/Pomodoro.tsx) and of the countdown
    variant of the same component (src/unnamed/part_000).

    React state is modelled the way the component uses it: an event
    handler (or interval callback) reads the values captured by its
    closure, i.e. the state of the render that created it, and every
    [setX(...)] call is queued; the queue is applied in order once the
    handler returns.  A handler is therefore a function from the
    captured state to a list of updates, and [run] commits that list. *)

From Stdlib Require Import ZArith String Ascii List Bool Lia.
From Stdlib Require Import DecimalString DecimalPos.
Import ListNotations.

Open Scope string_scope.
Open Scope Z_scope.

(** ** JavaScript values used by the component *)

Module JS.

(** [number | null] as [option Z]; a parsed number as [option Z] with
    [None] for NaN.  Both are falsy exactly when absent or zero. *)
Definition truthy (v : option Z) : bool :=
  match v with
  | Some n => negb (n =? 0)
  | None => false
  end.

(** [v || d] for a number-or-null (or possibly-NaN) [v]. *)
Definition or_else (v : option Z) (d : Z) : Z :=
  match v with
  | Some n => if n =? 0 then d else n
  | None => d
  end.

(** ToNumber on [number | null]: [null] converts to 0. *)
Definition to_number (v : option Z) : Z :=
  match v with
  | Some n => n
  | None => 0
  end.

(** The ASCII part of StrWhiteSpaceChar: TAB, LF, VT, FF, CR, SP. *)
Definition isStrWhiteSpaceChar (c : ascii) : bool :=
  let n := Z.of_N (N_of_ascii c) in
  ((9 <=? n) && (n <=? 13)) || (n =? 32).

Fixpoint trimStart (s : string) : string :=
  match s with
  | String c rest => if isStrWhiteSpaceChar c then trimStart rest else s
  | EmptyString => s
  end.

Definition digitValue (c : ascii) : option Z :=
  let n := Z.of_N (N_of_ascii c) in
  if (48 <=? n) && (n <=? 57) then Some (n - 48)
  else if (97 <=? n) && (n <=? 122) then Some (n - 87)
  else if (65 <=? n) && (n <=? 90) then Some (n - 55)
  else None.

(** Value of the longest prefix of radix-[R] digits; [acc] is [None]
    while no digit has been read. *)
Fixpoint parseDigits (R : Z) (s : string) (acc : option Z) : option Z :=
  match s with
  | String c rest =>
      match digitValue c with
      | Some d =>
          if d <? R
          then parseDigits R rest
                 (Some (match acc with Some a => a * R + d | None => d end))
          else acc
      | None => acc
      end
  | EmptyString => acc
  end.

(** [parseInt(string)] with no radix argument: leading white space is
    skipped, an optional sign is read, a [0x]/[0X] prefix selects
    radix 16, and the longest digit prefix is converted; NaN ([None])
    when there is no digit.  The result is the exact integer, which is
    what [parseInt] returns up to 2^53 in absolute value; beyond that
    the code holds the nearest double, which this model does not
    follow. *)
Definition parseInt (input : string) : option Z :=
  let S0 := trimStart input in
  let '(sign, S1) :=
    match S0 with
    | String "-" rest => (-1, rest)
    | String "+" rest => (1, rest)
    | _ => (1, S0)
    end in
  let '(R, S2) :=
    match S1 with
    | String "0" (String "x" rest) => (16, rest)
    | String "0" (String "X" rest) => (16, rest)
    | _ => (10, S1)
    end in
  option_map (Z.mul sign) (parseDigits R S2 None).

End JS.

(** ** The anchor-based component, src/components/Pomodoro.tsx *)

Module Pomodoro.

(** The [useState] cells of the component that carry timer and
    position state.  Times of day are [Date.now()] milliseconds,
    durations are seconds. *)
Record State : Type := mkState {
  workTime : Z;
  breakTime : Z;
  currentTime : Z;
  isActive : bool;
  isWorkSession : bool;
  cycleCount : Z;
  startTime : option Z;
  sessionStartTime : option Z;
  currentPosition : string;
  nextPosition : string;
  startingPosition : string
}.

(** The state of the first render. *)
Definition initial : State :=
  let workTime0 := 30 * 60 in
  {| workTime := workTime0;
     breakTime := 10 * 60;
     currentTime := workTime0;
     isActive := false;
     isWorkSession := true;
     cycleCount := 0;
     startTime := None;
     sessionStartTime := None;
     currentPosition := "sitting";
     nextPosition := "standing";
     startingPosition := "sitting" |}.

(** One queued state update: a setter called with a value, or (for
    the cycle counter) with an updater function. *)
Inductive Update : Type :=
| SetWorkTime (v : Z)
| SetBreakTime (v : Z)
| SetCurrentTime (v : Z)
| SetIsActive (v : bool)
| SetIsWorkSession (v : bool)
| SetCycleCount (v : Z)
| UpdCycleCount (f : Z -> Z)
| SetStartTime (v : option Z)
| SetSessionStartTime (v : option Z)
| SetCurrentPosition (v : string)
| SetNextPosition (v : string)
| SetStartingPosition (v : string).

Definition apply (u : Update) (s : State) : State :=
  let '(mkState wt bt ct ia iw cc st sst cp np sp) := s in
  match u with
  | SetWorkTime v => mkState v bt ct ia iw cc st sst cp np sp
  | SetBreakTime v => mkState wt v ct ia iw cc st sst cp np sp
  | SetCurrentTime v => mkState wt bt v ia iw cc st sst cp np sp
  | SetIsActive v => mkState wt bt ct v iw cc st sst cp np sp
  | SetIsWorkSession v => mkState wt bt ct ia v cc st sst cp np sp
  | SetCycleCount v => mkState wt bt ct ia iw v st sst cp np sp
  | UpdCycleCount f => mkState wt bt ct ia iw (f cc) st sst cp np sp
  | SetStartTime v => mkState wt bt ct ia iw cc v sst cp np sp
  | SetSessionStartTime v => mkState wt bt ct ia iw cc st v cp np sp
  | SetCurrentPosition v => mkState wt bt ct ia iw cc st sst v np sp
  | SetNextPosition v => mkState wt bt ct ia iw cc st sst cp v sp
  | SetStartingPosition v => mkState wt bt ct ia iw cc st sst cp np v
  end.

Definition commit (s : State) (queue : list Update) : State :=
  fold_left (fun acc u => apply u acc) queue s.

(** A handler sees the captured state and queues updates. *)
Definition Handler : Type := State -> list Update.

Definition run (h : Handler) (s : State) : State := commit s (h s).

(** The ternary [p === "sitting" ? "standing" : "sitting"]. *)
Definition other (p : string) : string :=
  if String.eqb p "sitting" then "standing" else "sitting".

Definition togglePosition : Handler := fun s =>
  let newPosition := other (currentPosition s) in
  let newNext := other newPosition in
  [SetCurrentPosition newPosition; SetNextPosition newNext].

(** Body of the timer effect before it installs the interval; [now]
    is the [Date.now()] read when the effect runs. *)
Definition timerEffect (now : Z) : Handler := fun s =>
  if isActive s then
    if negb (JS.truthy (startTime s))
    then [SetStartTime (Some now); SetSessionStartTime (Some now)]
    else []
  else [].

(** Updates queued when a countdown has expired; shared shape of the
    interval callback and of the visibility handler.  Notifications
    are sent here as well; they do not touch the state. *)
Definition expire (at_ : Z) (s : State) : list Update :=
  let wasWorkSession := isWorkSession s in
  (if wasWorkSession then
     [SetIsWorkSession false;
      SetCurrentTime (breakTime s);
      UpdCycleCount (fun prev => prev + 1);
      SetSessionStartTime (Some at_)]
   else
     [SetIsWorkSession true;
      SetCurrentTime (workTime s);
      SetSessionStartTime (Some at_)])
  ++ [SetCurrentPosition (nextPosition s);
      SetNextPosition (currentPosition s)].

(** The [setInterval] callback.  [now] is the instant captured by the
    effect that installed the interval, [currentNow] the instant of
    this firing. *)
Definition tick (now currentNow : Z) : Handler := fun s =>
  let totalSessionTime := if isWorkSession s then workTime s else breakTime s in
  let elapsedTime :=
    (currentNow - JS.or_else (sessionStartTime s) now) / 1000 in
  let remainingTime := Z.max 0 (totalSessionTime - elapsedTime) in
  SetCurrentTime remainingTime ::
  (if remainingTime <=? 0 then expire currentNow s else []).

(** [handleVisibilityChange]; [hidden] is [document.hidden]. *)
Definition handleVisibilityChange (hidden : bool) (now : Z) : Handler := fun s =>
  if negb hidden && isActive s && JS.truthy (sessionStartTime s) then
    let totalSessionTime := if isWorkSession s then workTime s else breakTime s in
    let elapsedTime := (now - JS.to_number (sessionStartTime s)) / 1000 in
    let remainingTime := Z.max 0 (totalSessionTime - elapsedTime) in
    SetCurrentTime remainingTime ::
    (if remainingTime <=? 0 then expire now s else [])
  else [].

Definition startTimer (now : Z) : Handler := fun _ =>
  [SetIsActive true; SetStartTime (Some now); SetSessionStartTime (Some now)].

Definition pauseTimer : Handler := fun _ =>
  [SetIsActive false; SetStartTime None; SetSessionStartTime None].

Definition resetTimer : Handler := fun s =>
  [SetIsActive false;
   SetIsWorkSession true;
   SetCurrentTime (workTime s);
   SetCurrentPosition (startingPosition s);
   SetNextPosition (other (startingPosition s));
   SetCycleCount 0;
   SetStartTime None;
   SetSessionStartTime None].

Definition updateWorkTime (minutes : Z) : Handler := fun s =>
  let seconds := minutes * 60 in
  SetWorkTime seconds ::
  (if isWorkSession s && negb (isActive s) then [SetCurrentTime seconds] else []).

Definition updateBreakTime (minutes : Z) : Handler := fun s =>
  let seconds := minutes * 60 in
  SetBreakTime seconds ::
  (if negb (isWorkSession s) && negb (isActive s) then [SetCurrentTime seconds] else []).

Definition setInitialPosition (position : string) : Handler := fun _ =>
  [SetStartingPosition position;
   SetCurrentPosition position;
   SetNextPosition (other position)].

(** [onClick] of the Start/Pause button. *)
Definition onStartPauseClick (now : Z) : Handler := fun s =>
  if isActive s then pauseTimer s else startTimer now s.

(** [onChange] of the two duration inputs; [value] is
    [e.target.value]. *)
Definition onWorkTimeChange (value : string) : Handler :=
  updateWorkTime (JS.or_else (JS.parseInt value) 25).

Definition onBreakTimeChange (value : string) : Handler :=
  updateBreakTime (JS.or_else (JS.parseInt value) 5).

(** *** The component as a transition system

    Everything that can happen to the state: the user's clicks and
    edits, the timer effect running after a render, the interval
    firing (an interval exists only while [isActive]) and the
    browser's visibility event.  The two starting-position buttons
    pass the literals ["sitting"] and ["standing"]. *)
Inductive Event : Type :=
| StartPauseClick (now : Z)
| ResetClick
| TogglePositionClick
| SittingClick
| StandingClick
| WorkTimeChange (value : string)
| BreakTimeChange (value : string)
| EffectRun (now : Z)
| IntervalFire (now currentNow : Z)
| VisibilityChange (hidden : bool) (now : Z).

Definition handlerOf (e : Event) : Handler :=
  match e with
  | StartPauseClick now => onStartPauseClick now
  | ResetClick => resetTimer
  | TogglePositionClick => togglePosition
  | SittingClick => setInitialPosition "sitting"
  | StandingClick => setInitialPosition "standing"
  | WorkTimeChange value => onWorkTimeChange value
  | BreakTimeChange value => onBreakTimeChange value
  | EffectRun now => timerEffect now
  | IntervalFire now currentNow =>
      fun s => if isActive s then tick now currentNow s else []
  | VisibilityChange hidden now => handleVisibilityChange hidden now
  end.

Definition step (e : Event) (s : State) : State := run (handlerOf e) s.

Inductive Reachable : State -> Prop :=
| Reachable_initial : Reachable initial
| Reachable_step (e : Event) (s : State) :
    Reachable s -> Reachable (step e s).

(** The two positions are one "sitting" and one "standing". *)
Definition Complementary (s : State) : Prop :=
  (currentPosition s = "sitting" /\ nextPosition s = "standing") \/
  (currentPosition s = "standing" /\ nextPosition s = "sitting").

Definition IsPosition (p : string) : Prop :=
  p = "sitting" \/ p = "standing".

(** The invariant of the position cells: the pair is complementary
    and the baseline restored by reset is a position. *)
Definition PositionsOk (s : State) : Prop :=
  Complementary s /\ IsPosition (startingPosition s).

(** Remaining seconds of the running phase as the interval callback
    and the visibility handler compute them from an anchor. *)
Definition remainingAt (anchor t : Z) (s : State) : Z :=
  Z.max 0 ((if isWorkSession s then workTime s else breakTime s)
           - (t - anchor) / 1000).

(** 2^53: up to it every integer is a JavaScript number, so that the
    integer arithmetic of this model is the arithmetic of the code. *)
Definition exactLimit : Z := 9007199254740992.

(** A duration the handlers can store exactly: a non-zero whole number
    of minutes within the exact integers. *)
Definition ExactDuration (seconds : Z) : Prop :=
  seconds <> 0 /\ (60 | seconds) /\ Z.abs seconds <= exactLimit.

(** An edit of a duration field whose minutes, times sixty, stay within
    the exact integers; every other event qualifies. *)
Definition ExactEdit (e : Event) : Prop :=
  match e with
  | WorkTimeChange value =>
      Z.abs (JS.or_else (JS.parseInt value) 25 * 60) <= exactLimit
  | BreakTimeChange value =>
      Z.abs (JS.or_else (JS.parseInt value) 5 * 60) <= exactLimit
  | _ => True
  end.

(** A clock that is counting: running, with a truthy anchor. *)
Definition Counting (s : State) : Prop :=
  isActive s = true /\ exists a, sessionStartTime s = Some a /\ 0 < a.

Definition steps (es : list Event) (s : State) : State :=
  fold_left (fun acc e => step e acc) es s.

Definition IsIntervalFire (e : Event) : Prop :=
  match e with
  | IntervalFire _ _ => True
  | _ => False
  end.

End Pomodoro.

(** ** The countdown variant, src/unnamed/part_000

    The same component without start instants: the interval fires once
    a second and steps [currentTime] down through an updater. *)

Module Countdown.

Record State : Type := mkState {
  workTime : Z;
  breakTime : Z;
  currentTime : Z;
  isActive : bool;
  isWorkSession : bool;
  cycleCount : Z;
  currentPosition : string;
  nextPosition : string;
  startingPosition : string
}.

Definition initial : State :=
  let workTime0 := 30 * 60 in
  {| workTime := workTime0;
     breakTime := 10 * 60;
     currentTime := workTime0;
     isActive := false;
     isWorkSession := true;
     cycleCount := 0;
     currentPosition := "sitting";
     nextPosition := "standing";
     startingPosition := "sitting" |}.

(** The effect installs the interval only under this condition. *)
Definition intervalInstalled (s : State) : bool :=
  isActive s && (0 <? currentTime s).

(** One firing of the interval: [setCurrentTime(prevTime => ...)]
    with the setters it calls on expiry.  The closure is recreated
    after every change of [currentTime], so [prevTime] is the
    captured [currentTime]. *)
Definition tick (s : State) : State :=
  let prevTime := currentTime s in
  if prevTime <=? 1 then
    let wasWorkSession := isWorkSession s in
    {| workTime := workTime s;
       breakTime := breakTime s;
       currentTime := if wasWorkSession then breakTime s else workTime s;
       isActive := false;
       isWorkSession := negb wasWorkSession;
       cycleCount := if wasWorkSession then cycleCount s + 1 else cycleCount s;
       currentPosition := nextPosition s;
       nextPosition := currentPosition s;
       startingPosition := startingPosition s |}
  else
    {| workTime := workTime s;
       breakTime := breakTime s;
       currentTime := prevTime - 1;
       isActive := isActive s;
       isWorkSession := isWorkSession s;
       cycleCount := cycleCount s;
       currentPosition := currentPosition s;
       nextPosition := nextPosition s;
       startingPosition := startingPosition s |}.

Definition startTimer (s : State) : State :=
  {| workTime := workTime s;
     breakTime := breakTime s;
     currentTime := currentTime s;
     isActive := true;
     isWorkSession := isWorkSession s;
     cycleCount := cycleCount s;
     currentPosition := currentPosition s;
     nextPosition := nextPosition s;
     startingPosition := startingPosition s |}.

Definition pauseTimer (s : State) : State :=
  {| workTime := workTime s;
     breakTime := breakTime s;
     currentTime := currentTime s;
     isActive := false;
     isWorkSession := isWorkSession s;
     cycleCount := cycleCount s;
     currentPosition := currentPosition s;
     nextPosition := nextPosition s;
     startingPosition := startingPosition s |}.


End Countdown.

(** ** What the component shows and sends *)

Module Display.

(** [Number.prototype.toString] on an integer below 10^21 in absolute
    value, where it prints every digit; from 10^21 on the code prints
    exponent notation, which this model does not follow. *)
Definition toString (n : Z) : string :=
  NilZero.string_of_int (Z.to_int n).

(** The first [n] characters of [fill] repeated; [rest] is what is left
    of the copy being read. *)
Fixpoint filler (n : nat) (fill rest : string) : string :=
  match n with
  | O => EmptyString
  | S n' =>
      match rest with
      | String c r => String c (filler n' fill r)
      | EmptyString =>
          match fill with
          | String c r => String c (filler n' fill r)
          | EmptyString => EmptyString
          end
      end
  end.

(** [String.prototype.padStart]. *)
Definition padStart (targetLength : nat) (padString : string) (str : string) : string :=
  if (targetLength <=? String.length str)%nat then str
  else if String.eqb padString EmptyString then str
  else (filler (targetLength - String.length str) padString padString ++ str)%string.

(** [formatTime]: [Math.floor(seconds / 60)] and [seconds % 60], the
    remainder taking the sign of [seconds], each padded to two
    characters. *)
Definition formatTime (seconds : Z) : string :=
  let mins := seconds / 60 in
  let secs := Z.rem seconds 60 in
  (padStart 2 "0" (toString mins) ++ ":" ++ padStart 2 "0" (toString secs))%string.

(** The character of a decimal digit. *)
Definition digitChar (d : Z) : ascii := ascii_of_N (Z.to_N (48 + d)).

(** Two digits, a colon, two digits. *)
Definition clockText (m1 m0 s1 s0 : Z) : string :=
  String (digitChar m1) (String (digitChar m0)
    (String ":" (String (digitChar s1) (String (digitChar s0) EmptyString)))).

End Display.

Module Notify.

Import Pomodoro.

(** Which of the two messages is sent. *)
Inductive Kind : Type := WorkComplete | BreakOver.

(** A notification as the values the callback interpolates into it:
    the kind stands for the title and the icon, [seconds] is the
    duration whose minutes the body announces and [switchTo] the
    position it names.  The rendered text is not modelled. *)
Record Notification : Type := mkNotification {
  kind : Kind;
  seconds : Z;
  switchTo : string
}.

(** What a callback does, in order: queue a state update or hand a
    notification to the browser. *)
Inductive Effect : Type :=
| Queue (u : Update)
| Send (n : Notification).

(** [sendNotification]: a notification is created only with the
    permission ["granted"]. *)
Definition sendNotification (notificationPermission : string)
    (n : Notification) : list Effect :=
  if String.eqb notificationPermission "granted" then [Send n] else [].

(** The branch taken on expiry, with its notification. *)
Definition onExpiry (notificationPermission : string) (at_ : Z)
    (s : State) : list Effect :=
  let wasWorkSession := isWorkSession s in
  (if wasWorkSession then
     [Queue (SetIsWorkSession false);
      Queue (SetCurrentTime (breakTime s));
      Queue (UpdCycleCount (fun prev => prev + 1));
      Queue (SetSessionStartTime (Some at_))]
     ++ sendNotification notificationPermission
          (mkNotification WorkComplete (breakTime s) (nextPosition s))
   else
     [Queue (SetIsWorkSession true);
      Queue (SetCurrentTime (workTime s));
      Queue (SetSessionStartTime (Some at_))]
     ++ sendNotification notificationPermission
          (mkNotification BreakOver (workTime s) (nextPosition s)))
  ++ [Queue (SetCurrentPosition (nextPosition s));
      Queue (SetNextPosition (currentPosition s))].

(** The [setInterval] callback with everything it does. *)
Definition intervalCallback (notificationPermission : string)
    (now currentNow : Z) (s : State) : list Effect :=
  let totalSessionTime := if isWorkSession s then workTime s else breakTime s in
  let elapsedTime :=
    (currentNow - JS.or_else (sessionStartTime s) now) / 1000 in
  let remainingTime := Z.max 0 (totalSessionTime - elapsedTime) in
  Queue (SetCurrentTime remainingTime) ::
  (if remainingTime <=? 0
   then onExpiry notificationPermission currentNow s else []).

(** [handleVisibilityChange] with everything it does. *)
Definition visibilityCallback (notificationPermission : string)
    (hidden : bool) (now : Z) (s : State) : list Effect :=
  if negb hidden && isActive s && JS.truthy (sessionStartTime s) then
    let totalSessionTime := if isWorkSession s then workTime s else breakTime s in
    let elapsedTime := (now - JS.to_number (sessionStartTime s)) / 1000 in
    let remainingTime := Z.max 0 (totalSessionTime - elapsedTime) in
    Queue (SetCurrentTime remainingTime) ::
    (if remainingTime <=? 0 then onExpiry notificationPermission now s else [])
  else [].

Definition queued (es : list Effect) : list Update :=
  flat_map (fun e => match e with Queue u => [u] | Send _ => [] end) es.

Definition sent (es : list Effect) : list Notification :=
  flat_map (fun e => match e with Queue _ => [] | Send n => [n] end) es.

End Notify.

(** ** Properties of the anchor-based component *)

Import Pomodoro.

(** Split on the scrutinee of the outermost conditional in the goal. *)
Ltac split_if :=
  match goal with
  | |- context [if ?b then _ else _] =>
      lazymatch b with
      | context [if _ then _ else _] => fail
      | _ => destruct b eqn:?
      end
  end.

Lemma Complementary_other (s : State) :
  Complementary s ->
  nextPosition s = other (currentPosition s) /\
  currentPosition s = other (nextPosition s).
Proof.
  intros [[Hc Hn] | [Hc Hn]]; rewrite Hc, Hn; split; reflexivity.
Qed.

Lemma Complementary_of_other (c : string) (s : State) :
  currentPosition s = other c ->
  nextPosition s = other (other c) ->
  Complementary s.
Proof.
  intros Hc Hn. unfold Complementary. rewrite Hc, Hn.
  unfold other. destruct (String.eqb c "sitting"); cbn; auto.
Qed.

Lemma Complementary_swap (s s' : State) :
  Complementary s ->
  currentPosition s' = nextPosition s ->
  nextPosition s' = currentPosition s ->
  Complementary s'.
Proof.
  unfold Complementary. intros H Hc Hn. rewrite Hc, Hn. tauto.
Qed.

Lemma Complementary_same (s s' : State) :
  Complementary s ->
  currentPosition s' = currentPosition s ->
  nextPosition s' = nextPosition s ->
  Complementary s'.
Proof.
  unfold Complementary. intros H Hc Hn. rewrite Hc, Hn. exact H.
Qed.

(** What a committed expiry does to each cell. *)
Lemma commit_expire (s : State) (r at_ : Z) :
  commit s (SetCurrentTime r :: expire at_ s) =
  {| workTime := workTime s;
     breakTime := breakTime s;
     currentTime := if isWorkSession s then breakTime s else workTime s;
     isActive := isActive s;
     isWorkSession := negb (isWorkSession s);
     cycleCount := if isWorkSession s then cycleCount s + 1 else cycleCount s;
     startTime := startTime s;
     sessionStartTime := Some at_;
     currentPosition := nextPosition s;
     nextPosition := currentPosition s;
     startingPosition := startingPosition s |}.
Proof.
  destruct s as [wt bt ct ia iw cc st sst cp np sp].
  unfold commit, expire; cbn. destruct iw; reflexivity.
Qed.

Lemma commit_no_expire (s : State) (r : Z) :
  commit s [SetCurrentTime r] =
  {| workTime := workTime s;
     breakTime := breakTime s;
     currentTime := r;
     isActive := isActive s;
     isWorkSession := isWorkSession s;
     cycleCount := cycleCount s;
     startTime := startTime s;
     sessionStartTime := sessionStartTime s;
     currentPosition := currentPosition s;
     nextPosition := nextPosition s;
     startingPosition := startingPosition s |}.
Proof. destruct s; reflexivity. Qed.

(** The interval callback, by cases on the remaining time it computes. *)
Lemma run_tick (now currentNow : Z) (s : State) :
  let r := remainingAt (JS.or_else (sessionStartTime s) now) currentNow s in
  run (tick now currentNow) s =
  if r <=? 0
  then commit s (SetCurrentTime r :: expire currentNow s)
  else commit s [SetCurrentTime r].
Proof.
  unfold run, tick, remainingAt; cbn zeta.
  destruct (Z.max 0 _ <=? 0); reflexivity.
Qed.

(** The visibility handler, likewise, when its guard passes. *)
Lemma run_handleVisibilityChange (now anchor : Z) (s : State) :
  isActive s = true ->
  sessionStartTime s = Some anchor ->
  anchor <> 0 ->
  let r := remainingAt anchor now s in
  run (handleVisibilityChange false now) s =
  if r <=? 0
  then commit s (SetCurrentTime r :: expire now s)
  else commit s [SetCurrentTime r].
Proof.
  intros Ha Hs Hz. unfold run, handleVisibilityChange, remainingAt; cbn zeta.
  rewrite Ha, Hs; cbn.
  destruct (Z.eqb_spec anchor 0) as [|_]; [contradiction|]. cbn.
  destruct (Z.max 0 _ <=? 0); reflexivity.
Qed.

(** The guard of the visibility handler failing leaves the state alone. *)
Lemma run_handleVisibilityChange_skip (hidden : bool) (now : Z) (s : State) :
  negb hidden && isActive s && JS.truthy (sessionStartTime s) = false ->
  run (handleVisibilityChange hidden now) s = s.
Proof.
  intros H. unfold run, handleVisibilityChange. rewrite H. reflexivity.
Qed.

Lemma step_PositionsOk (e : Event) (s : State) :
  PositionsOk s -> PositionsOk (step e s).
Proof.
  intros [H Hsp]. destruct e; unfold step, handlerOf.
  - (* start / pause *)
    split; [apply (Complementary_same s); auto|];
      destruct s as [wt bt ct [] iw cc st sst cp np sp]; auto.
  - (* reset *)
    split; [|destruct s; exact Hsp].
    destruct s as [wt bt ct ia iw cc st sst cp np sp]; cbn in Hsp |- *.
    destruct Hsp as [-> | ->]; [left | right]; split; reflexivity.
  - (* manual toggle *)
    split; [|destruct s; exact Hsp].
    apply (Complementary_of_other (currentPosition s)); destruct s; reflexivity.
  - split; [left | left]; destruct s; try split; reflexivity.
  - split; [right | right]; destruct s; try split; reflexivity.
  - split; [apply (Complementary_same s); auto|];
      destruct s as [wt bt ct [] [] cc st sst cp np sp]; auto.
  - split; [apply (Complementary_same s); auto|];
      destruct s as [wt bt ct [] [] cc st sst cp np sp]; auto.
  - split; [apply (Complementary_same s); auto|];
      destruct s as [wt bt ct [] iw cc [t|] sst cp np sp]; cbn;
      try destruct (t =? 0); auto.
  - (* interval *)
    destruct (isActive s) eqn:Ha.
    + unfold run. rewrite Ha.
      change (commit s (tick now currentNow s)) with (run (tick now currentNow) s).
      rewrite run_tick; cbn zeta. split_if.
      * rewrite commit_expire.
        split; [apply (Complementary_swap s); auto | exact Hsp].
      * rewrite commit_no_expire.
        split; [apply (Complementary_same s); auto | exact Hsp].
    + unfold run. rewrite Ha. split; assumption.
  - (* visibility *)
    destruct (negb hidden && isActive s && JS.truthy (sessionStartTime s)) eqn:G.
    + apply andb_prop in G as [G Ht]. apply andb_prop in G as [Hh Ha].
      destruct hidden; [discriminate|].
      destruct (sessionStartTime s) as [anchor|] eqn:Hs; [|discriminate].
      cbn in Ht. apply negb_true_iff in Ht. apply Z.eqb_neq in Ht.
      rewrite (run_handleVisibilityChange now anchor s Ha Hs Ht); cbn zeta.
      split_if.
      * rewrite commit_expire.
        split; [apply (Complementary_swap s); auto | exact Hsp].
      * rewrite commit_no_expire.
        split; [apply (Complementary_same s); auto | exact Hsp].
    + rewrite run_handleVisibilityChange_skip by exact G. split; assumption.
Qed.

Lemma initial_PositionsOk : PositionsOk initial.
Proof. split; left; [split|]; reflexivity. Qed.

Lemma Reachable_PositionsOk (s : State) : Reachable s -> PositionsOk s.
Proof.
  induction 1 as [| e s _ IH].
  - exact initial_PositionsOk.
  - apply step_PositionsOk, IH.
Qed.

(** C5.  In every reachable state the next position is the complement
    of the current one, one being "sitting" and the other "standing",
    and every operation (manual toggle, the swap at a phase transition
    by the interval or the visibility handler, choosing the starting
    position, reset, and all the others) preserves this. *)
Theorem positions_complementary (s : State) :
  Reachable s ->
  Complementary s /\
  nextPosition s = other (currentPosition s) /\
  forall e : Event, Complementary (step e s).
Proof.
  intros Hr. pose proof (Reachable_PositionsOk s Hr) as H.
  split; [exact (proj1 H)|]. split.
  - apply Complementary_other, H.
  - intros e. apply step_PositionsOk, H.
Qed.

Lemma positions_complementary_witness :
  Complementary (step TogglePositionClick initial) /\
  nextPosition (step TogglePositionClick initial)
  = other (currentPosition (step TogglePositionClick initial)) /\
  forall e : Event, Complementary (step e (step TogglePositionClick initial)).
Proof.
  apply (positions_complementary (step TogglePositionClick initial)).
  apply Reachable_step, Reachable_initial.
Defined.

(** *** Reset, manual toggle and start *)

(** C8.  Reset yields exactly: work phase, the full work duration
    remaining, cycle count 0, the starting position as current
    position, not running, both start instants cleared; the durations
    and the starting position are kept.  From every reachable state
    the next position it leaves is the complement of the starting
    position: "standing" when that is "sitting", "sitting" when that is
    "standing". *)
Theorem resetTimer_result (s : State) :
  run resetTimer s =
  {| workTime := workTime s;
     breakTime := breakTime s;
     currentTime := workTime s;
     isActive := false;
     isWorkSession := true;
     cycleCount := 0;
     startTime := None;
     sessionStartTime := None;
     currentPosition := startingPosition s;
     nextPosition := other (startingPosition s);
     startingPosition := startingPosition s |} /\
  (Reachable s ->
   (startingPosition s = "sitting" /\
    currentPosition (run resetTimer s) = "sitting" /\
    nextPosition (run resetTimer s) = "standing") \/
   (startingPosition s = "standing" /\
    currentPosition (run resetTimer s) = "standing" /\
    nextPosition (run resetTimer s) = "sitting")).
Proof.
  split; [destruct s; reflexivity|].
  intros Hr. destruct (Reachable_PositionsOk s Hr) as [_ Hsp].
  destruct s as [wt bt ct ia iw cc st sst cp np sp]; cbn in Hsp |- *.
  destruct Hsp as [-> | ->]; [left | right]; repeat split.
Qed.

Lemma resetTimer_result_witness :
  let s := step (IntervalFire 1000 1801000)
             (step (StartPauseClick 1000) (step StandingClick initial)) in
  run resetTimer s =
  {| workTime := 1800;
     breakTime := 600;
     currentTime := 1800;
     isActive := false;
     isWorkSession := true;
     cycleCount := 0;
     startTime := None;
     sessionStartTime := None;
     currentPosition := "standing";
     nextPosition := "sitting";
     startingPosition := "standing" |} /\
  currentPosition s = "sitting" /\
  startingPosition s = "standing" /\
  currentPosition (run resetTimer s) = "standing" /\
  nextPosition (run resetTimer s) = "sitting".
Proof.
  pose (s := step (IntervalFire 1000 1801000)
               (step (StartPauseClick 1000) (step StandingClick initial))).
  destruct (resetTimer_result s) as [Hrec Hpos].
  destruct Hpos as [(Hsp & _) | (Hsp & Hc & Hn)].
  - do 3 apply Reachable_step. apply Reachable_initial.
  - discriminate Hsp.
  - exact (conj Hrec (conj eq_refl (conj Hsp (conj Hc Hn)))).
Defined.

(** C10.  The manual toggle writes the two position cells only: phase,
    remaining time, running flag, cycle count, both durations, the
    starting position and both start instants are unchanged. *)
Theorem togglePosition_frame (s : State) :
  let s' := run togglePosition s in
  isWorkSession s' = isWorkSession s /\
  currentTime s' = currentTime s /\
  isActive s' = isActive s /\
  cycleCount s' = cycleCount s /\
  workTime s' = workTime s /\
  breakTime s' = breakTime s /\
  startingPosition s' = startingPosition s /\
  startTime s' = startTime s /\
  sessionStartTime s' = sessionStartTime s.
Proof. destruct s; cbn. repeat split. Qed.

(** C9.  On a pair of complementary positions the manual toggle is an
    involution: two toggles give back the current and the next position
    (indeed the whole state), whether or not the timer is running. *)
Theorem togglePosition_twice (s : State) :
  Complementary s ->
  run togglePosition (run togglePosition s) = s.
Proof.
  intros [[Hc Hn] | [Hc Hn]];
    destruct s as [wt bt ct ia iw cc st sst cp np sp];
    cbn in Hc, Hn; subst; reflexivity.
Qed.

Lemma togglePosition_twice_witness :
  run togglePosition (run togglePosition (run (startTimer 1000) initial))
  = run (startTimer 1000) initial.
Proof.
  apply (togglePosition_twice (run (startTimer 1000) initial)).
  left. split; reflexivity.
Defined.

(** C7, as the code has it.  [startTimer] has no guard of its own: in
    any state, a running one included, it sets the running flag and
    moves both start instants to the present, leaving every other cell
    alone.  The Start/Pause button is what keeps it from a running
    clock: its click handler is [pauseTimer] while the clock runs and
    [startTimer] otherwise. *)
Theorem startTimer_always_reanchors (now : Z) (s : State) :
  run (startTimer now) s =
  {| workTime := workTime s;
     breakTime := breakTime s;
     currentTime := currentTime s;
     isActive := true;
     isWorkSession := isWorkSession s;
     cycleCount := cycleCount s;
     startTime := Some now;
     sessionStartTime := Some now;
     currentPosition := currentPosition s;
     nextPosition := nextPosition s;
     startingPosition := startingPosition s |}
  /\ run (onStartPauseClick now) s
     = if isActive s then run pauseTimer s else run (startTimer now) s.
Proof.
  split.
  - destruct s; reflexivity.
  - unfold run, onStartPauseClick. destruct (isActive s); reflexivity.
Qed.

(** C7 fails as stated: on a clock started at instant 1000, calling
    [startTimer] again at instant 5000 moves the anchor of the ongoing
    countdown. *)
Lemma startTimer_running_not_noop :
  let s := run (startTimer 1000) initial in
  isActive s = true /\
  sessionStartTime s = Some 1000 /\
  sessionStartTime (run (startTimer 5000) s) = Some 5000 /\
  run (startTimer 5000) s <> s.
Proof.
  cbn. repeat split. discriminate.
Qed.

(** *** Expiry of a countdown *)

Lemma or_else_anchor (a now : Z) : a <> 0 -> JS.or_else (Some a) now = a.
Proof.
  intros Ha. unfold JS.or_else. destruct (Z.eqb_spec a 0); [contradiction | reflexivity].
Qed.

Lemma elapsed_whole_seconds (a d : Z) : (a + d * 1000 - a) / 1000 = d.
Proof.
  replace (a + d * 1000 - a) with (d * 1000) by lia.
  apply Z.div_mul. discriminate.
Qed.

Lemma started_state (t0 : Z) (s : State) :
  let s' := run (startTimer t0) s in
  isActive s' = true /\ sessionStartTime s' = Some t0 /\
  isWorkSession s' = isWorkSession s /\ cycleCount s' = cycleCount s /\
  workTime s' = workTime s /\ breakTime s' = breakTime s /\
  currentPosition s' = currentPosition s /\ nextPosition s' = nextPosition s.
Proof. destruct s; cbn. repeat split. Qed.

(** An interval firing at or after the end of the phase performs the
    transition and anchors the new phase at the firing instant. *)
Lemma tick_expired (now t a : Z) (s : State) :
  sessionStartTime s = Some a -> a <> 0 ->
  remainingAt a t s <= 0 ->
  run (tick now t) s =
  {| workTime := workTime s;
     breakTime := breakTime s;
     currentTime := if isWorkSession s then breakTime s else workTime s;
     isActive := isActive s;
     isWorkSession := negb (isWorkSession s);
     cycleCount := if isWorkSession s then cycleCount s + 1 else cycleCount s;
     startTime := startTime s;
     sessionStartTime := Some t;
     currentPosition := nextPosition s;
     nextPosition := currentPosition s;
     startingPosition := startingPosition s |}.
Proof.
  intros Hs Ha Hr. rewrite run_tick; cbn zeta.
  rewrite Hs, (or_else_anchor a now Ha).
  apply Z.leb_le in Hr. rewrite Hr. apply commit_expire.
Qed.

(** An interval firing before the end of the phase only refreshes the
    remaining time. *)
Lemma tick_counting (now t a : Z) (s : State) :
  sessionStartTime s = Some a -> a <> 0 ->
  0 < remainingAt a t s ->
  run (tick now t) s =
  {| workTime := workTime s;
     breakTime := breakTime s;
     currentTime := remainingAt a t s;
     isActive := isActive s;
     isWorkSession := isWorkSession s;
     cycleCount := cycleCount s;
     startTime := startTime s;
     sessionStartTime := sessionStartTime s;
     currentPosition := currentPosition s;
     nextPosition := nextPosition s;
     startingPosition := startingPosition s |}.
Proof.
  intros Hs Ha Hr. rewrite run_tick; cbn zeta.
  rewrite Hs, (or_else_anchor a now Ha).
  apply Z.leb_gt in Hr. rewrite Hr. rewrite commit_no_expire, Hs. reflexivity.
Qed.

(** C4.  Start the clock in the work phase at instant [t0], let exactly
    [workTime] seconds pass and fire the interval: one Work-to-Break
    transition happens, the cycle count becomes 1 and the remaining
    time is the break duration.  With a positive break duration no
    further transition is fired for that expiry: any later firing
    before the break has run out leaves phase and cycle count as they
    are and only counts the break down. *)
Theorem tick_at_work_expiry (s : State) (t0 now : Z) :
  isWorkSession s = true ->
  cycleCount s = 0 ->
  0 < t0 ->
  let expiry := t0 + workTime s * 1000 in
  let s1 := run (tick now expiry) (run (startTimer t0) s) in
  isWorkSession s1 = false /\
  cycleCount s1 = 1 /\
  currentTime s1 = breakTime s /\
  isActive s1 = true /\
  sessionStartTime s1 = Some expiry /\
  (0 <= workTime s -> 0 < breakTime s ->
   forall now' t, expiry <= t < expiry + breakTime s * 1000 ->
     let s2 := run (tick now' t) s1 in
     isWorkSession s2 = false /\
     cycleCount s2 = 1 /\
     currentTime s2 = breakTime s - (t - expiry) / 1000 /\
     0 < currentTime s2).
Proof.
  intros Hw Hc Ht0 expiry s1.
  destruct (started_state t0 s) as (Ha & Hs & Hw' & Hc' & Hwt & Hbt & _).
  assert (E : s1 =
    {| workTime := workTime s;
       breakTime := breakTime s;
       currentTime := breakTime s;
       isActive := true;
       isWorkSession := false;
       cycleCount := 1;
       startTime := Some t0;
       sessionStartTime := Some expiry;
       currentPosition := nextPosition s;
       nextPosition := currentPosition s;
       startingPosition := startingPosition s |}).
  { subst s1. rewrite (tick_expired now expiry t0); [| exact Hs | lia |].
    - destruct s; cbn in Hw, Hc |- *; subst; reflexivity.
    - unfold remainingAt. rewrite Hw', Hw, Hwt. subst expiry.
      rewrite elapsed_whole_seconds. lia. }
  rewrite E. do 5 (split; [reflexivity|]).
  intros Hwt0 Hbt0 now' t Ht. cbv zeta.
  assert (Hq : 0 <= (t - expiry) / 1000 < breakTime s).
  { split.
    - apply Z.div_pos; lia.
    - apply Z.div_lt_upper_bound; lia. }
  rewrite (tick_counting now' t expiry); cbn; try reflexivity.
  - unfold remainingAt; cbn. repeat split; lia.
  - subst expiry. lia.
  - unfold remainingAt; cbn. lia.
Qed.

Lemma tick_at_work_expiry_witness :
  let s1 := run (tick 1000 1801000) (run (startTimer 1000) initial) in
  let s2 := run (tick 1801000 1806500) s1 in
  (isWorkSession s1 = false /\ cycleCount s1 = 1 /\ currentTime s1 = 600) /\
  (isWorkSession s2 = false /\ cycleCount s2 = 1 /\ currentTime s2 = 595).
Proof.
  destruct (tick_at_work_expiry initial 1000 1000)
    as (Hphase & Hcycle & Hrem & _ & _ & Hlater);
    [reflexivity | reflexivity | lia |].
  destruct (Hlater ltac:(cbn; lia) ltac:(cbn; lia) 1801000 1806500 ltac:(cbn; lia))
    as (Hphase2 & Hcycle2 & Hrem2 & _).
  repeat split; assumption.
Defined.

(** *** Resuming from the background *)

Lemma handleVisibilityChange_expired (now a : Z) (s : State) :
  isActive s = true ->
  sessionStartTime s = Some a -> a <> 0 ->
  remainingAt a now s <= 0 ->
  run (handleVisibilityChange false now) s =
  {| workTime := workTime s;
     breakTime := breakTime s;
     currentTime := if isWorkSession s then breakTime s else workTime s;
     isActive := isActive s;
     isWorkSession := negb (isWorkSession s);
     cycleCount := if isWorkSession s then cycleCount s + 1 else cycleCount s;
     startTime := startTime s;
     sessionStartTime := Some now;
     currentPosition := nextPosition s;
     nextPosition := currentPosition s;
     startingPosition := startingPosition s |}.
Proof.
  intros Hact Hs Ha Hr.
  rewrite (run_handleVisibilityChange now a s Hact Hs Ha); cbn zeta.
  apply Z.leb_le in Hr. rewrite Hr. apply commit_expire.
Qed.

(** C1, as the code has it.  A clock running in the work phase since
    [t0] that is resumed [workTime + breakTime + 1] seconds later
    processes one expiry in the single call of the visibility handler:
    the result is the break phase, cycle count 1, the full break
    duration remaining and the break anchored at the instant of the
    resumption, positions swapped once, still running. *)
Theorem resume_processes_one_expiry (s : State) (t0 : Z) :
  isActive s = true ->
  isWorkSession s = true ->
  cycleCount s = 0 ->
  sessionStartTime s = Some t0 ->
  0 < t0 ->
  0 <= breakTime s ->
  let now := t0 + (workTime s + breakTime s + 1) * 1000 in
  let s1 := run (handleVisibilityChange false now) s in
  isWorkSession s1 = false /\
  cycleCount s1 = 1 /\
  currentTime s1 = breakTime s /\
  sessionStartTime s1 = Some now /\
  isActive s1 = true /\
  currentPosition s1 = nextPosition s /\
  nextPosition s1 = currentPosition s.
Proof.
  intros Hact Hw Hc Hs Ht0 Hb now s1. subst s1.
  rewrite (handleVisibilityChange_expired now t0 s Hact Hs); [| lia |].
  - cbn. rewrite Hw, Hc, Hact. repeat split.
  - unfold remainingAt. rewrite Hw. subst now.
    rewrite elapsed_whole_seconds. lia.
Qed.

Lemma resume_processes_one_expiry_witness :
  let s := run (startTimer 1000) initial in
  let now := 1000 + (1800 + 600 + 1) * 1000 in
  let s1 := run (handleVisibilityChange false now) s in
  isWorkSession s1 = false /\
  cycleCount s1 = 1 /\
  currentTime s1 = 600 /\
  sessionStartTime s1 = Some now /\
  isActive s1 = true /\
  currentPosition s1 = "standing" /\
  nextPosition s1 = "sitting".
Proof.
  apply (resume_processes_one_expiry (run (startTimer 1000) initial) 1000);
    first [reflexivity | cbn; lia].
Defined.

(** C1 fails as stated: with the default durations (1800 s and 600 s)
    and a clock started at instant 1000, one call of the visibility
    handler 2401 seconds later does not end in the work phase with
    1799 seconds remaining. *)
Lemma resume_two_expiries_counterexample :
  let s := run (startTimer 1000) initial in
  let s1 :=
    run (handleVisibilityChange false (1000 + (1800 + 600 + 1) * 1000)) s in
  isActive s = true /\ isWorkSession s = true /\
  ~ (isWorkSession s1 = true /\ cycleCount s1 = 1 /\
     currentTime s1 = workTime s - 1).
Proof.
  cbn. repeat split. intros [H _]. discriminate H.
Qed.

(** *** Pause and restart *)

(** Pausing and starting again at one instant and then letting the
    interval fire at that instant shows the full duration of the phase,
    whatever had been counted down before the pause. *)
Lemma pause_start_tick_full_duration (s : State) (now now' : Z) :
  now <> 0 ->
  0 < (if isWorkSession s then workTime s else breakTime s) ->
  let s' := run (tick now' now) (run (startTimer now) (run pauseTimer s)) in
  currentTime s' = (if isWorkSession s then workTime s else breakTime s) /\
  currentTime (run (startTimer now) (run pauseTimer s)) = currentTime s.
Proof.
  intros Hn Hd. cbv zeta. split; [| destruct s; reflexivity].
  rewrite (tick_counting now' now now).
  - unfold remainingAt. destruct s; cbn in *.
    rewrite Z.sub_diag. cbn. lia.
  - destruct s; reflexivity.
  - exact Hn.
  - unfold remainingAt. destruct s; cbn in *.
    rewrite Z.sub_diag. cbn. lia.
Qed.


(** C2, evaluated on the code.  Start at instant 1000 with the default
    30-minute work phase; the interval firing 100 s later shows 1700 s.
    Pause and start again at that very instant: the display still shows
    1700 s, but the first firing of the interval, with no time elapsed,
    computes 1800 s, the full phase, not the 1700 s frozen by the
    pause. *)
Theorem pause_start_loses_elapsed_time :
  let running := step (IntervalFire 1000 101000)
                   (step (StartPauseClick 1000) initial) in
  let paused := step (StartPauseClick 101000) running in
  let restarted := step (StartPauseClick 101000) paused in
  let ticked := step (IntervalFire 101000 101000) restarted in
  isActive running = true /\ currentTime running = 1700 /\
  isActive paused = false /\ currentTime paused = 1700 /\
  isActive restarted = true /\ currentTime restarted = 1700 /\
  isActive ticked = true /\ isWorkSession ticked = true /\
  currentTime ticked = 1800.
Proof. vm_compute. repeat split. Qed.

(** *** The machine keeps cycling *)

Lemma remainingAt_expired (a t : Z) (s : State) :
  a + Z.max 0 (if isWorkSession s then workTime s else breakTime s) * 1000 <= t ->
  remainingAt a t s <= 0.
Proof.
  intros Ht. unfold remainingAt.
  set (d := if isWorkSession s then workTime s else breakTime s) in *.
  assert (Z.max 0 d <= (t - a) / 1000).
  { apply Z.div_le_lower_bound; lia. }
  lia.
Qed.

Lemma step_IntervalFire (now t : Z) (s : State) :
  isActive s = true ->
  step (IntervalFire now t) s = run (tick now t) s.
Proof.
  intros Ha. unfold step, handlerOf, run. rewrite Ha. reflexivity.
Qed.

(** From a counting clock the interval alone brings about the next
    transition, and the clock is counting again afterwards. *)
Lemma Counting_next_transition (s : State) :
  Counting s ->
  exists now t,
    Counting (step (IntervalFire now t) s) /\
    isWorkSession (step (IntervalFire now t) s) = negb (isWorkSession s).
Proof.
  intros [Hact (a & Hs & Ha)].
  set (t := a + Z.max 0 (if isWorkSession s then workTime s else breakTime s) * 1000).
  exists a, t. rewrite (step_IntervalFire a t s Hact).
  rewrite (tick_expired a t a s Hs); [| lia | apply remainingAt_expired; subst t; lia].
  cbn. split; [| reflexivity].
  split; [exact Hact|]. exists t. split; [reflexivity | subst t; lia].
Qed.

Lemma steps_app (es es' : list Event) (s : State) :
  steps (es ++ es')%list s = steps es' (steps es s).
Proof. unfold steps. apply fold_left_app. Qed.

(** Any number of transitions follow one another without a click. *)
Lemma Counting_cycles (n : nat) (s : State) :
  Counting s ->
  exists es : list Event,
    List.length es = n /\ Forall IsIntervalFire es /\
    Counting (steps es s) /\
    isWorkSession (steps es s) = Nat.iter n negb (isWorkSession s).
Proof.
  intros Hs. induction n as [| n (es & Hlen & Hfire & Hc & Hphase)].
  - exists []. repeat split; [constructor | exact (proj1 Hs) | exact (proj2 Hs)].
  - destruct (Counting_next_transition _ Hc) as (now & t & Hc' & Hflip).
    exists (es ++ [IntervalFire now t])%list. rewrite steps_app.
    split; [rewrite length_app, Hlen; cbn; lia|].
    split; [apply Forall_app; split; [exact Hfire | repeat constructor]|].
    split; [exact Hc'|].
    change (steps [IntervalFire now t] (steps es s))
      with (step (IntervalFire now t) (steps es s)).
    rewrite Hflip, Hphase. reflexivity.
Qed.

(** C3, as the code has it.  In the anchor-based component an expiry
    handled by the interval callback or by the visibility handler flips
    the phase, leaves the clock running and anchors the new phase, so a
    counting clock goes through any number of transitions on interval
    firings alone.  In the countdown variant the interval callback
    instead stops the clock at every expiry, and no interval is
    installed until Start is pressed again. *)
Theorem expiry_keeps_anchored_clock_running
    (s : State) (a now t : Z) (c : Countdown.State) :
  isActive s = true ->
  sessionStartTime s = Some a ->
  0 < a ->
  remainingAt a t s <= 0 ->
  Countdown.intervalInstalled c = true ->
  Countdown.currentTime c <= 1 ->
  (let s' := step (IntervalFire now t) s in
   isWorkSession s' = negb (isWorkSession s) /\
   isActive s' = true /\ sessionStartTime s' = Some t) /\
  (let s' := step (VisibilityChange false t) s in
   isWorkSession s' = negb (isWorkSession s) /\
   isActive s' = true /\ sessionStartTime s' = Some t) /\
  (forall n : nat, exists es : list Event,
     List.length es = n /\ Forall IsIntervalFire es /\
     Counting (steps es s) /\
     isWorkSession (steps es s) = Nat.iter n negb (isWorkSession s)) /\
  (let c' := Countdown.tick c in
   Countdown.isWorkSession c' = negb (Countdown.isWorkSession c) /\
   Countdown.isActive c' = false /\
   Countdown.intervalInstalled c' = false).
Proof.
  intros Hact Hs Ha Hr Hi Hc. repeat apply conj.
  - rewrite (step_IntervalFire now t s Hact).
    rewrite (tick_expired now t a s Hs); [reflexivity | lia | exact Hr].
  - rewrite (step_IntervalFire now t s Hact).
    rewrite (tick_expired now t a s Hs); [exact Hact | lia | exact Hr].
  - rewrite (step_IntervalFire now t s Hact).
    rewrite (tick_expired now t a s Hs); [reflexivity | lia | exact Hr].
  - change (step (VisibilityChange false t) s)
      with (run (handleVisibilityChange false t) s).
    rewrite (handleVisibilityChange_expired t a s Hact Hs); [reflexivity | lia | exact Hr].
  - change (step (VisibilityChange false t) s)
      with (run (handleVisibilityChange false t) s).
    rewrite (handleVisibilityChange_expired t a s Hact Hs); [exact Hact | lia | exact Hr].
  - change (step (VisibilityChange false t) s)
      with (run (handleVisibilityChange false t) s).
    rewrite (handleVisibilityChange_expired t a s Hact Hs); [reflexivity | lia | exact Hr].
  - intros n. apply Counting_cycles. split; [exact Hact|]. exists a. auto.
  - unfold Countdown.tick. apply Z.leb_le in Hc. rewrite Hc. reflexivity.
  - unfold Countdown.tick. apply Z.leb_le in Hc. rewrite Hc. reflexivity.
  - unfold Countdown.tick. apply Z.leb_le in Hc. rewrite Hc. reflexivity.
Qed.

Lemma expiry_keeps_anchored_clock_running_witness :
  let s := run (startTimer 1000) initial in
  let c := Nat.iter 1799 Countdown.tick (Countdown.startTimer Countdown.initial) in
  (let s' := step (IntervalFire 1000 1801000) s in
   isWorkSession s' = negb (isWorkSession s) /\
   isActive s' = true /\ sessionStartTime s' = Some 1801000) /\
  (let s' := step (VisibilityChange false 1801000) s in
   isWorkSession s' = negb (isWorkSession s) /\
   isActive s' = true /\ sessionStartTime s' = Some 1801000) /\
  (forall n : nat, exists es : list Event,
     List.length es = n /\ Forall IsIntervalFire es /\
     Counting (steps es s) /\
     isWorkSession (steps es s) = Nat.iter n negb (isWorkSession s)) /\
  (let c' := Countdown.tick c in
   Countdown.isWorkSession c' = negb (Countdown.isWorkSession c) /\
   Countdown.isActive c' = false /\
   Countdown.intervalInstalled c' = false).
Proof.
  apply (expiry_keeps_anchored_clock_running
           (run (startTimer 1000) initial) 1000 1000 1801000
           (Nat.iter 1799 Countdown.tick (Countdown.startTimer Countdown.initial)));
    first [reflexivity | lia | vm_compute; reflexivity | vm_compute; discriminate].
Defined.

(** C3 fails as stated on the countdown variant: started from its
    initial state and stepped down to the last second of the work
    phase, the next firing of the interval performs the Work-to-Break
    transition and leaves the clock stopped. *)
Lemma countdown_expiry_stops_clock :
  let c := Nat.iter 1799 Countdown.tick (Countdown.startTimer Countdown.initial) in
  Countdown.intervalInstalled c = true /\
  Countdown.isWorkSession c = true /\
  Countdown.currentTime c = 1 /\
  Countdown.isWorkSession (Countdown.tick c) = false /\
  Countdown.currentTime (Countdown.tick c) = 600 /\
  ~ Countdown.isActive (Countdown.tick c) = true.
Proof.
  vm_compute. repeat split. discriminate.
Qed.

(** *** Duration inputs *)

Lemma run_updateWorkTime (minutes : Z) (s : State) :
  run (updateWorkTime minutes) s =
  {| workTime := minutes * 60;
     breakTime := breakTime s;
     currentTime :=
       if isWorkSession s && negb (isActive s) then minutes * 60 else currentTime s;
     isActive := isActive s;
     isWorkSession := isWorkSession s;
     cycleCount := cycleCount s;
     startTime := startTime s;
     sessionStartTime := sessionStartTime s;
     currentPosition := currentPosition s;
     nextPosition := nextPosition s;
     startingPosition := startingPosition s |}.
Proof.
  destruct s as [wt bt ct ia iw cc st sst cp np sp].
  unfold run, updateWorkTime; cbn. destruct iw, ia; reflexivity.
Qed.

Lemma run_updateBreakTime (minutes : Z) (s : State) :
  run (updateBreakTime minutes) s =
  {| workTime := workTime s;
     breakTime := minutes * 60;
     currentTime :=
       if negb (isWorkSession s) && negb (isActive s)
       then minutes * 60 else currentTime s;
     isActive := isActive s;
     isWorkSession := isWorkSession s;
     cycleCount := cycleCount s;
     startTime := startTime s;
     sessionStartTime := sessionStartTime s;
     currentPosition := currentPosition s;
     nextPosition := nextPosition s;
     startingPosition := startingPosition s |}.
Proof.
  destruct s as [wt bt ct ia iw cc st sst cp np sp].
  unfold run, updateBreakTime; cbn. destruct iw, ia; reflexivity.
Qed.

(** C6, evaluated on the code.  The work field declares the bounds 1
    to 90 minutes and the break field 1 to 30, and both fall back to a
    default, yet what is typed is stored unclamped: 500 typed into
    either field stores 30000 seconds, above 5400 and above 1800, and
    -5 stores -300 seconds, neither brought up to the lower bound of 60
    nor replaced by the default.  The fallback catches only what
    parses to no number or to 0, here the texts abc, the empty text, 0
    and 0.5: they store 25 minutes of work and 5 minutes of break. *)
Theorem duration_inputs_escape_bounds :
  (workTime (step (WorkTimeChange "500") initial) = 30000 /\
   breakTime (step (BreakTimeChange "500") initial) = 30000 /\
   ~ (60 <= workTime (step (WorkTimeChange "500") initial) <= 5400) /\
   ~ (60 <= breakTime (step (BreakTimeChange "500") initial) <= 1800)) /\
  (workTime (step (WorkTimeChange "-5") initial) = -300 /\
   breakTime (step (BreakTimeChange "-5") initial) = -300 /\
   ~ (60 <= workTime (step (WorkTimeChange "-5") initial) <= 5400) /\
   ~ (60 <= breakTime (step (BreakTimeChange "-5") initial) <= 1800)) /\
  Forall (fun text =>
            workTime (step (WorkTimeChange text) initial) = 25 * 60 /\
            breakTime (step (BreakTimeChange text) initial) = 5 * 60)
         ["abc"; ""; "0"; "0.5"].
Proof.
  split; [| split].
  - vm_compute. repeat split; intros [_ H]; apply H; reflexivity.
  - vm_compute. repeat split; intros [H _]; apply H; reflexivity.
  - repeat constructor.
Qed.

(** ** Further properties of the anchor-based component *)

(** What the two clock events can do to a state: nothing, refresh the
    remaining time, or perform the transition. *)
Lemma clock_event_cases (e : Event) (s : State) :
  IsIntervalFire e \/ (exists hidden now, e = VisibilityChange hidden now) ->
  step e s = s \/
  (isActive s = true /\ exists r, step e s = commit s [SetCurrentTime r]) \/
  (isActive s = true /\
   exists r at_, step e s = commit s (SetCurrentTime r :: expire at_ s)).
Proof.
  intros [He | (hidden & now & ->)].
  - destruct e; try contradiction. unfold step, handlerOf, run.
    destruct (isActive s) eqn:Ha; [| left; reflexivity].
    change (commit s (tick now currentNow s)) with (run (tick now currentNow) s).
    rewrite run_tick; cbn zeta. split_if.
    + right; right. split; [reflexivity|]. eauto.
    + right; left. split; [reflexivity|]. eauto.
  - unfold step, handlerOf.
    destruct (negb hidden && isActive s && JS.truthy (sessionStartTime s)) eqn:G.
    + apply andb_prop in G as [G Ht]. apply andb_prop in G as [Hh Ha].
      destruct hidden; [discriminate|].
      destruct (sessionStartTime s) as [anchor|] eqn:Hs; [|discriminate].
      cbn in Ht. apply negb_true_iff in Ht. apply Z.eqb_neq in Ht.
      rewrite (run_handleVisibilityChange now anchor s Ha Hs Ht); cbn zeta.
      split_if.
      * right; right. split; [exact Ha|]. eauto.
      * right; left. split; [exact Ha|]. eauto.
    + left. apply run_handleVisibilityChange_skip, G.
Qed.

(** *** The start instants *)

Lemma step_anchors (e : Event) (s : State) :
  (if isActive s
   then startTime s <> None /\ sessionStartTime s <> None
   else startTime s = None /\ sessionStartTime s = None) ->
  (if isActive (step e s)
   then startTime (step e s) <> None /\ sessionStartTime (step e s) <> None
   else startTime (step e s) = None /\ sessionStartTime (step e s) = None).
Proof.
  intros H.
  assert (Hclock :
    IsIntervalFire e \/ (exists hidden now, e = VisibilityChange hidden now) ->
    if isActive (step e s)
    then startTime (step e s) <> None /\ sessionStartTime (step e s) <> None
    else startTime (step e s) = None /\ sessionStartTime (step e s) = None).
  { intros He.
    destruct (clock_event_cases e s He)
      as [-> | [(Ha & r & ->) | (Ha & r & at_ & ->)]].
    - exact H.
    - rewrite commit_no_expire; cbn. rewrite Ha in *. exact H.
    - rewrite commit_expire; cbn. rewrite Ha in *.
      split; [apply H | discriminate]. }
  destruct e; try (apply Hclock; cbn; eauto; fail); clear Hclock;
    unfold step, handlerOf;
    destruct s as [wt bt ct ia iw cc st sst cp np sp]; cbn in H |- *.
  - destruct ia; cbn; split; congruence.
  - split; reflexivity.
  - exact H.
  - exact H.
  - exact H.
  - destruct iw, ia; exact H.
  - destruct iw, ia; exact H.
  - destruct ia; [| exact H].
    destruct st as [t|]; [| destruct H as [H _]; congruence].
    cbn. destruct (t =? 0); cbn; [split; discriminate | exact H].
Qed.

(** X1.  In every reachable state the two start instants are set
    exactly while the clock is running. *)
Theorem anchors_set_iff_running (s : State) :
  Reachable s ->
  (isActive s = true <-> startTime s <> None) /\
  (isActive s = true <-> sessionStartTime s <> None).
Proof.
  intros Hr.
  assert (H : if isActive s
              then startTime s <> None /\ sessionStartTime s <> None
              else startTime s = None /\ sessionStartTime s = None).
  { induction Hr as [| e s _ IH]; [split; reflexivity | apply step_anchors, IH]. }
  destruct (isActive s); destruct H as [H1 H2]; split; split;
    intros; congruence.
Qed.

Lemma anchors_set_iff_running_witness :
  let s := step (StartPauseClick 1000) initial in
  (isActive s = true <-> startTime s <> None) /\
  (isActive s = true <-> sessionStartTime s <> None).
Proof.
  apply (anchors_set_iff_running (step (StartPauseClick 1000) initial)).
  apply Reachable_step, Reachable_initial.
Defined.

(** X3.  On a running clock with an anchor, the visibility handler of
    a visible tab does exactly what a firing of the interval at the
    same instant does. *)
Theorem resume_same_as_interval (s : State) (a now t : Z) :
  isActive s = true ->
  sessionStartTime s = Some a ->
  a <> 0 ->
  step (VisibilityChange false t) s = step (IntervalFire now t) s.
Proof.
  intros Hact Hs Ha.
  rewrite (step_IntervalFire now t s Hact).
  change (step (VisibilityChange false t) s)
    with (run (handleVisibilityChange false t) s).
  rewrite (run_handleVisibilityChange t a s Hact Hs Ha), run_tick.
  rewrite Hs, (or_else_anchor a now Ha). reflexivity.
Qed.

Lemma resume_same_as_interval_witness :
  let s := step (StartPauseClick 1000) initial in
  step (VisibilityChange false 2500000) s = step (IntervalFire 1000 2500000) s.
Proof.
  apply (resume_same_as_interval (step (StartPauseClick 1000) initial) 1000);
    [reflexivity | reflexivity | discriminate].
Defined.

(** *** Counting down *)

Lemma remainingAt_currentTime (a t r : Z) (s : State) :
  remainingAt a t (commit s [SetCurrentTime r]) = remainingAt a t s.
Proof. destruct s; reflexivity. Qed.

(** X4.  How often the interval fires does not matter: a firing that
    finds the phase unexpired leaves no trace in what a later firing
    computes. *)
Theorem earlier_firing_leaves_no_trace (s : State) (a n1 t1 n2 t2 : Z) :
  sessionStartTime s = Some a ->
  a <> 0 ->
  0 < remainingAt a t1 s ->
  run (tick n2 t2) (run (tick n1 t1) s) = run (tick n2 t2) s.
Proof.
  intros Hs Ha Hr.
  assert (E : run (tick n1 t1) s = commit s [SetCurrentTime (remainingAt a t1 s)]).
  { rewrite run_tick; cbn zeta. rewrite Hs, (or_else_anchor a n1 Ha).
    apply Z.leb_gt in Hr. rewrite Hr. reflexivity. }
  rewrite E, !run_tick; cbn zeta.
  assert (Hs' : sessionStartTime (commit s [SetCurrentTime (remainingAt a t1 s)])
                = Some a) by (destruct s; exact Hs).
  rewrite Hs', Hs, (or_else_anchor a n2 Ha), remainingAt_currentTime.
  split_if; destruct s as [wt bt ct ia [] cc st sst cp np sp]; reflexivity.
Qed.

Lemma earlier_firing_leaves_no_trace_witness :
  let s := step (StartPauseClick 1000) initial in
  run (tick 1000 2000000) (run (tick 1000 500000) s) = run (tick 1000 2000000) s.
Proof.
  apply (earlier_firing_leaves_no_trace
           (step (StartPauseClick 1000) initial) 1000 1000 500000 1000 2000000);
    [reflexivity | discriminate | reflexivity].
Defined.



(** X6.  With non-negative durations, a firing at or after the anchor
    leaves a remaining time between 0 and the full duration of the
    phase then shown, so the progress stays between 0 and 100 percent. *)
Theorem remaining_within_phase (s : State) (a now t : Z) :
  sessionStartTime s = Some a ->
  a <> 0 ->
  a <= t ->
  0 <= workTime s ->
  0 <= breakTime s ->
  let s' := run (tick now t) s in
  0 <= currentTime s' <= (if isWorkSession s' then workTime s' else breakTime s').
Proof.
  intros Hs Ha Ht Hw Hb. cbv zeta.
  assert (He : 0 <= (t - a) / 1000) by (apply Z.div_pos; lia).
  destruct (Z.le_gt_cases (remainingAt a t s) 0) as [Hr | Hr].
  - rewrite (tick_expired now t a s Hs Ha Hr); cbn.
    destruct (isWorkSession s); cbn; lia.
  - rewrite (tick_counting now t a s Hs Ha Hr); cbn.
    unfold remainingAt in *. destruct (isWorkSession s); lia.
Qed.

Lemma remaining_within_phase_witness :
  let s' := run (tick 1000 700000) (step (StartPauseClick 1000) initial) in
  0 <= currentTime s' <= (if isWorkSession s' then workTime s' else breakTime s').
Proof.
  apply (remaining_within_phase (step (StartPauseClick 1000) initial) 1000 1000 700000);
    first [reflexivity | discriminate | cbn; lia].
Defined.

(** X7.  A full cycle: start in the work phase at [t0], fire the
    interval when the work time is over and again when the break that
    began there is over.  The clock is back in the work phase with the
    full work time, the positions are the ones it started with, and the
    cycle count has gone up by one, at the first of the two
    transitions. *)
Theorem work_break_cycle (s : State) (t0 n1 n2 : Z) :
  isWorkSession s = true ->
  0 < t0 ->
  0 <= workTime s ->
  let end_work := t0 + workTime s * 1000 in
  let end_break := end_work + breakTime s * 1000 in
  let s1 := run (tick n1 end_work) (run (startTimer t0) s) in
  let s2 := run (tick n2 end_break) s1 in
  (isWorkSession s1 = false /\ cycleCount s1 = cycleCount s + 1 /\
   currentPosition s1 = nextPosition s /\ nextPosition s1 = currentPosition s) /\
  (isWorkSession s2 = true /\ cycleCount s2 = cycleCount s + 1 /\
   currentTime s2 = workTime s /\ isActive s2 = true /\
   sessionStartTime s2 = Some end_break /\
   currentPosition s2 = currentPosition s /\ nextPosition s2 = nextPosition s).
Proof.
  intros Hw Ht0 Hwt end_work end_break s1 s2.
  destruct (started_state t0 s) as (Ha & Hs & Hw' & Hc' & Hwt' & Hbt' & Hcp & Hnp).
  assert (E1 : s1 =
    {| workTime := workTime s;
       breakTime := breakTime s;
       currentTime := breakTime s;
       isActive := true;
       isWorkSession := false;
       cycleCount := cycleCount s + 1;
       startTime := Some t0;
       sessionStartTime := Some end_work;
       currentPosition := nextPosition s;
       nextPosition := currentPosition s;
       startingPosition := startingPosition s |}).
  { subst s1. rewrite (tick_expired n1 end_work t0); [| exact Hs | lia |].
    - destruct s; cbn in Hw |- *; subst; reflexivity.
    - unfold remainingAt. rewrite Hw', Hw, Hwt'. subst end_work.
      rewrite elapsed_whole_seconds. lia. }
  split; [rewrite E1; cbn; repeat split|].
  subst s2. rewrite (tick_expired n2 end_break end_work).
  - rewrite E1; cbn. repeat split.
  - rewrite E1; reflexivity.
  - subst end_work. lia.
  - rewrite E1. unfold remainingAt; cbn. subst end_break.
    rewrite elapsed_whole_seconds. lia.
Qed.

Lemma work_break_cycle_witness :
  let s1 := run (tick 1000 1801000) (run (startTimer 1000) initial) in
  let s2 := run (tick 1801000 2401000) s1 in
  (isWorkSession s1 = false /\ cycleCount s1 = 0 + 1 /\
   currentPosition s1 = "standing" /\ nextPosition s1 = "sitting") /\
  (isWorkSession s2 = true /\ cycleCount s2 = 0 + 1 /\
   currentTime s2 = 1800 /\ isActive s2 = true /\
   sessionStartTime s2 = Some 2401000 /\
   currentPosition s2 = "sitting" /\ nextPosition s2 = "standing").
Proof.
  apply (work_break_cycle initial 1000 1000 1801000);
    first [reflexivity | cbn; lia].
Defined.

(** *** The cycle counter *)

Lemma step_cycleCount (e : Event) (s : State) :
  (cycleCount (step e s) = cycleCount s /\
   (isWorkSession s = true -> isWorkSession (step e s) = true)) \/
  (cycleCount (step e s) = cycleCount s + 1 /\
   isWorkSession s = true /\ isWorkSession (step e s) = false) \/
  (e = ResetClick /\ cycleCount (step e s) = 0 /\ isWorkSession (step e s) = true).
Proof.
  assert (Hclock :
    IsIntervalFire e \/ (exists hidden now, e = VisibilityChange hidden now) ->
    (cycleCount (step e s) = cycleCount s /\
     (isWorkSession s = true -> isWorkSession (step e s) = true)) \/
    (cycleCount (step e s) = cycleCount s + 1 /\
     isWorkSession s = true /\ isWorkSession (step e s) = false)).
  { intros He.
    destruct (clock_event_cases e s He)
      as [-> | [(Ha & r & ->) | (Ha & r & at_ & ->)]].
    - left. auto.
    - left. rewrite commit_no_expire; cbn. auto.
    - rewrite commit_expire; cbn. destruct (isWorkSession s); cbn.
      + right. auto.
      + left. split; [reflexivity | discriminate]. }
  destruct e;
    try (destruct Hclock as [H | H]; [cbn; eauto | left; exact H | right; left; exact H]; fail);
    clear Hclock; unfold step, handlerOf;
    destruct s as [wt bt ct ia iw cc st sst cp np sp]; cbn.
  - left. destruct ia; cbn; auto.
  - right; right. auto.
  - left. auto.
  - left. auto.
  - left. auto.
  - left. destruct iw, ia; cbn; auto.
  - left. destruct iw, ia; cbn; auto.
  - left. destruct ia; cbn; auto. destruct st as [t|]; cbn; auto.
    destruct (t =? 0); cbn; auto.
Qed.

Lemma Reachable_cycleCount (s : State) : Reachable s -> 0 <= cycleCount s.
Proof.
  induction 1 as [| e s _ IH]; [cbn; lia|].
  destruct (step_cycleCount e s) as [[H _] | [[H _] | (_ & H & _)]]; lia.
Qed.

(** X8.  The cycle counter is never negative.  Reset puts it back to
    0; every other event raises it by exactly one when it takes the
    clock from the work phase to the break phase and leaves it as it is
    otherwise.  So the counter goes up by one exactly on Work to
    Break. *)
Theorem cycleCount_counts_finished_work (s : State) (e : Event) :
  Reachable s ->
  0 <= cycleCount s /\
  (cycleCount (step e s) = cycleCount s + 1 <->
   isWorkSession s = true /\ isWorkSession (step e s) = false) /\
  cycleCount (step e s) =
    match e with
    | ResetClick => 0
    | _ => if isWorkSession s && negb (isWorkSession (step e s))
           then cycleCount s + 1 else cycleCount s
    end.
Proof.
  intros Hr. pose proof (Reachable_cycleCount s Hr) as H0.
  split; [exact H0|]. split.
  - destruct (step_cycleCount e s) as [[H Hw] | [(H & Hw & Hb) | (He & H & Hw)]].
    + split.
      * intros H1. lia.
      * intros [Hw1 Hb]. rewrite (Hw Hw1) in Hb. discriminate.
    + split; auto.
    + split.
      * intros H1. lia.
      * intros [_ Hb]. rewrite Hw in Hb. discriminate.
  - assert (Hother : e <> ResetClick ->
              cycleCount (step e s) =
              if isWorkSession s && negb (isWorkSession (step e s))
              then cycleCount s + 1 else cycleCount s).
    { intros Hne.
      destruct (step_cycleCount e s) as [[H Hw] | [(H & Hw & Hb) | (He & _)]];
        [| | contradiction].
      - destruct (isWorkSession s); cbn; [rewrite (Hw eq_refl); cbn|]; exact H.
      - rewrite Hw, Hb. exact H. }
    destruct e; try (apply Hother; discriminate).
    destruct s; reflexivity.
Qed.

Lemma cycleCount_counts_finished_work_witness :
  let s := step (StartPauseClick 1000) initial in
  let e := IntervalFire 1000 1801000 in
  0 <= cycleCount s /\
  (cycleCount (step e s) = cycleCount s + 1 <->
   isWorkSession s = true /\ isWorkSession (step e s) = false) /\
  cycleCount (step e s) =
    (if isWorkSession s && negb (isWorkSession (step e s))
     then cycleCount s + 1 else cycleCount s).
Proof.
  apply (cycleCount_counts_finished_work
           (step (StartPauseClick 1000) initial) (IntervalFire 1000 1801000)).
  apply Reachable_step, Reachable_initial.
Defined.

(** *** The durations *)

Lemma or_else_nonzero (v : option Z) (d : Z) : d <> 0 -> JS.or_else v d <> 0.
Proof.
  intros Hd. unfold JS.or_else. destruct v as [n|]; [| exact Hd].
  destruct (Z.eqb_spec n 0); assumption.
Qed.

Lemma step_ExactDuration (e : Event) (s : State) :
  ExactEdit e ->
  ExactDuration (workTime s) /\ ExactDuration (breakTime s) ->
  ExactDuration (workTime (step e s)) /\ ExactDuration (breakTime (step e s)).
Proof.
  intros He H.
  assert (Hclock :
    IsIntervalFire e \/ (exists hidden now, e = VisibilityChange hidden now) ->
    workTime (step e s) = workTime s /\ breakTime (step e s) = breakTime s).
  { intros Hc.
    destruct (clock_event_cases e s Hc)
      as [-> | [(Ha & r & ->) | (Ha & r & at_ & ->)]].
    - auto.
    - rewrite commit_no_expire; cbn. auto.
    - rewrite commit_expire; cbn. auto. }
  destruct e;
    try (destruct Hclock as [-> ->]; [cbn; eauto | exact H]; fail);
    clear Hclock; unfold step, handlerOf.
  - destruct s as [wt bt ct [] iw cc st sst cp np sp]; exact H.
  - destruct s; exact H.
  - destruct s; exact H.
  - destruct s; exact H.
  - destruct s; exact H.
  - unfold onWorkTimeChange. rewrite run_updateWorkTime; cbn.
    pose proof (or_else_nonzero (JS.parseInt value) 25 ltac:(discriminate)).
    split; [| exact (proj2 H)].
    repeat split; [lia | apply Z.divide_factor_r | exact He].
  - unfold onBreakTimeChange. rewrite run_updateBreakTime; cbn.
    pose proof (or_else_nonzero (JS.parseInt value) 5 ltac:(discriminate)).
    split; [exact (proj1 H)|].
    repeat split; [lia | apply Z.divide_factor_r | exact He].
  - destruct s as [wt bt ct [] iw cc [t|] sst cp np sp]; cbn;
      try destruct (t =? 0); exact H.
Qed.

Lemma steps_ExactDuration (es : list Event) (s : State) :
  Forall ExactEdit es ->
  ExactDuration (workTime s) /\ ExactDuration (breakTime s) ->
  ExactDuration (workTime (steps es s)) /\
  ExactDuration (breakTime (steps es s)).
Proof.
  intros H. revert s. induction H as [| e es He _ IH]; intros s Hs.
  - exact Hs.
  - change (steps (e :: es) s) with (steps es (step e s)).
    apply IH, step_ExactDuration; assumption.
Qed.

Lemma initial_ExactDuration :
  ExactDuration (workTime initial) /\ ExactDuration (breakTime initial).
Proof.
  split; (split; [discriminate | split; [| vm_compute; discriminate]]).
  - exists 30. reflexivity.
  - exists 10. reflexivity.
Qed.

(** X9.  As long as the minutes typed into the duration fields, times
    sixty, stay within the exact integers (2^53), both durations are
    non-zero whole minutes in every state the component reaches,
    whatever else was typed or clicked; in particular the duration of
    the phase shown is never zero. *)
Theorem durations_whole_minutes_never_zero (es : list Event) :
  Forall ExactEdit es ->
  let s := steps es initial in
  (workTime s <> 0 /\ (60 | workTime s)) /\
  (breakTime s <> 0 /\ (60 | breakTime s)) /\
  (if isWorkSession s then workTime s else breakTime s) <> 0.
Proof.
  intros H s.
  destruct (steps_ExactDuration es initial H initial_ExactDuration)
    as [(Hw & Hwd & _) [Hb (Hbd & _)]].
  fold s in Hw, Hwd, Hb, Hbd.
  repeat split; try assumption.
  destruct (isWorkSession s); assumption.
Qed.

Lemma durations_whole_minutes_never_zero_witness :
  let s := steps [WorkTimeChange "0"; BreakTimeChange ""; StartPauseClick 1000;
                  WorkTimeChange "-5"; BreakTimeChange "0.5"] initial in
  (workTime s <> 0 /\ (60 | workTime s)) /\
  (breakTime s <> 0 /\ (60 | breakTime s)) /\
  (if isWorkSession s then workTime s else breakTime s) <> 0.
Proof.
  apply (durations_whole_minutes_never_zero
           [WorkTimeChange "0"; BreakTimeChange ""; StartPauseClick 1000;
            WorkTimeChange "-5"; BreakTimeChange "0.5"]).
  repeat constructor; vm_compute; discriminate.
Defined.

(** *** Changing a duration while the clock runs *)

(** X10.  Editing the work time of a running work phase leaves the
    remaining time shown and the anchor as they are, and the new
    duration is measured from the old anchor: when more than the new
    work time has already gone by, the next firing of the interval ends
    the work phase at once. *)
Theorem shorter_work_time_expires_at_once
    (s : State) (typed : string) (m a now t : Z) :
  isActive s = true ->
  isWorkSession s = true ->
  sessionStartTime s = Some a ->
  a <> 0 ->
  JS.parseInt typed = Some m ->
  1 <= m ->
  m * 60 <= (t - a) / 1000 ->
  let s1 := step (WorkTimeChange typed) s in
  let s2 := step (IntervalFire now t) s1 in
  currentTime s1 = currentTime s /\
  sessionStartTime s1 = Some a /\
  isWorkSession s1 = true /\
  isWorkSession s2 = false /\
  cycleCount s2 = cycleCount s + 1 /\
  currentTime s2 = breakTime s.
Proof.
  intros Hact Hw Hs Ha Hm Hpos He s1 s2.
  assert (E1 : s1 =
    {| workTime := m * 60;
       breakTime := breakTime s;
       currentTime := currentTime s;
       isActive := true;
       isWorkSession := true;
       cycleCount := cycleCount s;
       startTime := startTime s;
       sessionStartTime := Some a;
       currentPosition := currentPosition s;
       nextPosition := nextPosition s;
       startingPosition := startingPosition s |}).
  { subst s1. unfold step, handlerOf, onWorkTimeChange.
    rewrite run_updateWorkTime, Hm, Hact, Hw, Hs. unfold JS.or_else.
    destruct (Z.eqb_spec m 0); [lia | reflexivity]. }
  subst s2. rewrite E1. cbn [currentTime sessionStartTime isWorkSession].
  do 3 (split; [reflexivity|]).
  rewrite step_IntervalFire by reflexivity.
  rewrite (tick_expired now t a); [| reflexivity | exact Ha |].
  - cbn. repeat split.
  - unfold remainingAt; cbn. lia.
Qed.

Lemma shorter_work_time_expires_at_once_witness :
  let s := step (StartPauseClick 1000) initial in
  let s1 := step (WorkTimeChange "5") s in
  let s2 := step (IntervalFire 1000 601000) s1 in
  currentTime s1 = currentTime s /\
  sessionStartTime s1 = Some 1000 /\
  isWorkSession s1 = true /\
  isWorkSession s2 = false /\
  cycleCount s2 = cycleCount s + 1 /\
  currentTime s2 = breakTime s.
Proof.
  apply (shorter_work_time_expires_at_once
           (step (StartPauseClick 1000) initial) "5" 5 1000 1000 601000);
    first [reflexivity | discriminate | cbn; lia].
Defined.

(** *** Start, pause and reset *)

Lemma Reachable_paused_anchors (s : State) :
  Reachable s -> isActive s = false ->
  startTime s = None /\ sessionStartTime s = None.
Proof.
  intros Hr.
  assert (H : if isActive s
              then startTime s <> None /\ sessionStartTime s <> None
              else startTime s = None /\ sessionStartTime s = None).
  { induction Hr as [| e s _ IH]; [split; reflexivity | apply step_anchors, IH]. }
  intros Ha. rewrite Ha in H. exact H.
Qed.

(** X11.  On a paused clock, pressing the Start/Pause button twice
    with no firing of the interval in between gives back the state it
    was in: starting and pausing alone change nothing that is shown. *)
Theorem start_then_pause_restores (s : State) (t1 t2 : Z) :
  Reachable s ->
  isActive s = false ->
  step (StartPauseClick t2) (step (StartPauseClick t1) s) = s.
Proof.
  intros Hr Ha. destruct (Reachable_paused_anchors s Hr Ha) as [Hst Hsst].
  destruct s as [wt bt ct ia iw cc st sst cp np sp]; cbn in Ha, Hst, Hsst.
  subst. reflexivity.
Qed.

Lemma start_then_pause_restores_witness :
  let s := step (WorkTimeChange "45") initial in
  step (StartPauseClick 7000) (step (StartPauseClick 1000) s) = s.
Proof.
  apply (start_then_pause_restores (step (WorkTimeChange "45") initial) 1000 7000);
    [apply Reachable_step, Reachable_initial | reflexivity].
Defined.

Lemma step_startingPosition (e : Event) (s : State) :
  e <> SittingClick -> e <> StandingClick ->
  startingPosition (step e s) = startingPosition s.
Proof.
  intros H1 H2.
  assert (Hclock :
    IsIntervalFire e \/ (exists hidden now, e = VisibilityChange hidden now) ->
    startingPosition (step e s) = startingPosition s).
  { intros He.
    destruct (clock_event_cases e s He)
      as [-> | [(Ha & r & ->) | (Ha & r & at_ & ->)]].
    - reflexivity.
    - rewrite commit_no_expire; reflexivity.
    - rewrite commit_expire; reflexivity. }
  destruct e; try contradiction;
    try (apply Hclock; cbn; eauto; fail); clear Hclock; unfold step, handlerOf.
  - destruct s as [wt bt ct [] iw cc st sst cp np sp]; reflexivity.
  - destruct s; reflexivity.
  - destruct s; reflexivity.
  - unfold onWorkTimeChange. rewrite run_updateWorkTime. reflexivity.
  - unfold onBreakTimeChange. rewrite run_updateBreakTime. reflexivity.
  - destruct s as [wt bt ct [] iw cc [t|] sst cp np sp]; cbn;
      try destruct (t =? 0); reflexivity.
Qed.

Lemma steps_startingPosition (es : list Event) (s : State) :
  Forall (fun e => e <> SittingClick /\ e <> StandingClick) es ->
  startingPosition (steps es s) = startingPosition s.
Proof.
  intros H. revert s. induction H as [| e es [H1 H2] _ IH]; intros s.
  - reflexivity.
  - change (steps (e :: es) s) with (steps es (step e s)).
    rewrite IH. apply step_startingPosition; assumption.
Qed.

Lemma resetTimer_positions (s : State) :
  currentPosition (run resetTimer s) = startingPosition s /\
  nextPosition (run resetTimer s) = other (startingPosition s).
Proof. destruct s; split; reflexivity. Qed.

(** X12.  Once a starting position has been chosen, reset brings it
    back as the current position, with the other one next, whatever
    has happened in between short of choosing again: toggles,
    transitions, edits, starts and pauses. *)
Theorem reset_restores_chosen_position (s : State) (es : list Event) :
  Forall (fun e => e <> SittingClick /\ e <> StandingClick) es ->
  (let s' := step ResetClick (steps es (step StandingClick s)) in
   currentPosition s' = "standing" /\ nextPosition s' = "sitting") /\
  (let s' := step ResetClick (steps es (step SittingClick s)) in
   currentPosition s' = "sitting" /\ nextPosition s' = "standing").
Proof.
  intros H. split; cbv zeta.
  - destruct (resetTimer_positions (steps es (step StandingClick s))) as [Hc Hn].
    unfold step at 1 3. cbn [handlerOf]. rewrite Hc, Hn.
    rewrite (steps_startingPosition es _ H).
    destruct s; split; reflexivity.
  - destruct (resetTimer_positions (steps es (step SittingClick s))) as [Hc Hn].
    unfold step at 1 3. cbn [handlerOf]. rewrite Hc, Hn.
    rewrite (steps_startingPosition es _ H).
    destruct s; split; reflexivity.
Qed.

Lemma reset_restores_chosen_position_witness :
  let es := [TogglePositionClick; StartPauseClick 1000; IntervalFire 1000 1801000] in
  (let s' := step ResetClick (steps es (step StandingClick initial)) in
   currentPosition s' = "standing" /\ nextPosition s' = "sitting") /\
  (let s' := step ResetClick (steps es (step SittingClick initial)) in
   currentPosition s' = "sitting" /\ nextPosition s' = "standing").
Proof.
  apply (reset_restores_chosen_position initial
           [TogglePositionClick; StartPauseClick 1000; IntervalFire 1000 1801000]).
  repeat constructor; discriminate.
Defined.

(** *** Manual toggle and transitions *)

(** X13.  On complementary positions the swap done at a transition is
    the swap of the manual toggle, and the toggle commutes with the two
    clock events: toggling just before or just after a firing of the
    interval or a visibility event gives the same state, so a toggle
    never disturbs the countdown. *)
Theorem toggle_commutes_with_clock (s : State) (hidden : bool) (now t : Z) :
  Complementary s ->
  step TogglePositionClick (step (IntervalFire now t) s)
  = step (IntervalFire now t) (step TogglePositionClick s) /\
  step TogglePositionClick (step (VisibilityChange hidden t) s)
  = step (VisibilityChange hidden t) (step TogglePositionClick s) /\
  currentPosition (commit s (expire t s))
  = currentPosition (step TogglePositionClick s) /\
  nextPosition (commit s (expire t s))
  = nextPosition (step TogglePositionClick s).
Proof.
  intros [[Hc Hn] | [Hc Hn]];
    destruct s as [wt bt ct ia iw cc st sst cp np sp];
    cbn in Hc, Hn; subst;
    (split; [| split; [| destruct iw; split; reflexivity]]);
    unfold step, handlerOf, run, tick, handleVisibilityChange, togglePosition;
    cbn -[Z.max Z.div Z.leb Z.sub];
    destruct ia, hidden; cbn -[Z.max Z.div Z.leb Z.sub];
    try reflexivity;
    repeat split_if; cbn -[Z.max Z.div Z.leb Z.sub];
    try reflexivity; destruct iw; reflexivity.
Qed.

Lemma toggle_commutes_with_clock_witness :
  let s := step (StartPauseClick 1000) initial in
  step TogglePositionClick (step (IntervalFire 1000 1801000) s)
  = step (IntervalFire 1000 1801000) (step TogglePositionClick s) /\
  step TogglePositionClick (step (VisibilityChange false 1801000) s)
  = step (VisibilityChange false 1801000) (step TogglePositionClick s) /\
  currentPosition (commit s (expire 1801000 s))
  = currentPosition (step TogglePositionClick s) /\
  nextPosition (commit s (expire 1801000 s))
  = nextPosition (step TogglePositionClick s).
Proof.
  apply (toggle_commutes_with_clock
           (step (StartPauseClick 1000) initial) false 1000 1801000).
  left. split; reflexivity.
Defined.

(** ** The time shown *)

Lemma below_6000_checked (P : Z -> bool) :
  forallb (fun n => P (Z.of_nat n)) (seq 0 (Z.to_nat 6000)) = true ->
  forall z, 0 <= z < 6000 -> P z = true.
Proof.
  intros H z Hz. rewrite forallb_forall in H.
  specialize (H (Z.to_nat z)). rewrite Z2Nat.id in H by lia.
  apply H, in_seq. lia.
Qed.

Lemma formatTime_below_6000 (seconds : Z) :
  0 <= seconds < 6000 ->
  Display.formatTime seconds
  = Display.clockText (seconds / 600) (seconds / 60 mod 10)
      (seconds mod 60 / 10) (seconds mod 10).
Proof.
  intros H. apply String.eqb_eq.
  apply (below_6000_checked
           (fun z => String.eqb (Display.formatTime z)
                       (Display.clockText (z / 600) (z / 60 mod 10)
                          (z mod 60 / 10) (z mod 10))));
    [vm_compute; reflexivity | exact H].
Qed.

Lemma digitChar_inj (d d' : Z) :
  0 <= d < 10 -> 0 <= d' < 10 ->
  Display.digitChar d = Display.digitChar d' -> d = d'.
Proof.
  intros Hd Hd' H. unfold Display.digitChar in H.
  apply (f_equal N_of_ascii) in H.
  rewrite !N_ascii_embedding in H by lia. lia.
Qed.

(** X14.  Below one hundred minutes the time is shown as exactly five
    characters, two digits of minutes, a colon and two digits of
    seconds, zero-padded; different remaining times are shown
    differently. *)
Theorem formatTime_mm_ss (seconds : Z) :
  0 <= seconds < 6000 ->
  Display.formatTime seconds
  = Display.clockText (seconds / 600) (seconds / 60 mod 10)
      (seconds mod 60 / 10) (seconds mod 10) /\
  String.length (Display.formatTime seconds) = 5%nat /\
  forall other : Z, 0 <= other < 6000 ->
    Display.formatTime other = Display.formatTime seconds -> other = seconds.
Proof.
  intros H. split; [apply formatTime_below_6000, H|].
  split; [rewrite formatTime_below_6000 by exact H; reflexivity|].
  intros other Ho E.
  rewrite (formatTime_below_6000 seconds H), (formatTime_below_6000 other Ho) in E.
  unfold Display.clockText in E. injection E as E1 E2 E3 E4.
  pose proof (Z.mod_pos_bound seconds 60 ltac:(lia)) as Hs60.
  pose proof (Z.mod_pos_bound other 60 ltac:(lia)) as Ho60.
  apply digitChar_inj in E1;
    [| split; [apply Z.div_pos | apply Z.div_lt_upper_bound]; lia
     | split; [apply Z.div_pos | apply Z.div_lt_upper_bound]; lia].
  apply digitChar_inj in E2; [| apply Z.mod_pos_bound; lia ..].
  apply digitChar_inj in E3;
    [| split; [apply Z.div_pos | apply Z.div_lt_upper_bound]; lia
     | split; [apply Z.div_pos | apply Z.div_lt_upper_bound]; lia].
  apply digitChar_inj in E4; [| apply Z.mod_pos_bound; lia ..].
  Z.div_mod_to_equations. lia.
Qed.

Lemma formatTime_mm_ss_witness :
  Display.formatTime 605 = Display.clockText 1 0 0 5 /\
  String.length (Display.formatTime 605) = 5%nat /\
  forall other : Z, 0 <= other < 6000 ->
    Display.formatTime other = Display.formatTime 605 -> other = 605.
Proof.
  apply (formatTime_mm_ss 605). lia.
Defined.

(** ** Notifications *)

Lemma queued_app (es es' : list Notify.Effect) :
  Notify.queued (es ++ es')%list = (Notify.queued es ++ Notify.queued es')%list.
Proof. apply flat_map_app. Qed.

Lemma sent_app (es es' : list Notify.Effect) :
  Notify.sent (es ++ es')%list = (Notify.sent es ++ Notify.sent es')%list.
Proof. apply flat_map_app. Qed.

Lemma queued_onExpiry (perm : string) (at_ : Z) (s : State) :
  Notify.queued (Notify.onExpiry perm at_ s) = expire at_ s.
Proof.
  unfold Notify.onExpiry, expire, Notify.sendNotification.
  destruct (isWorkSession s), (String.eqb perm "granted"); reflexivity.
Qed.

Lemma sent_onExpiry (perm : string) (at_ : Z) (s : State) :
  Notify.sent (Notify.onExpiry perm at_ s) =
  if String.eqb perm "granted"
  then [Notify.mkNotification
          (if isWorkSession s then Notify.WorkComplete else Notify.BreakOver)
          (if isWorkSession s then breakTime s else workTime s)
          (nextPosition s)]
  else [].
Proof.
  unfold Notify.onExpiry, Notify.sendNotification.
  destruct (isWorkSession s), (String.eqb perm "granted"); reflexivity.
Qed.

Lemma sent_cons_queue (u : Update) (es : list Notify.Effect) :
  Notify.sent (Notify.Queue u :: es) = Notify.sent es.
Proof. reflexivity. Qed.

(** The state updates of the full callbacks are the handlers above. *)
Lemma queued_callbacks (perm : string) (hidden : bool) (now t : Z) (s : State) :
  Notify.queued (Notify.intervalCallback perm now t s) = tick now t s /\
  Notify.queued (Notify.visibilityCallback perm hidden t s)
  = handleVisibilityChange hidden t s.
Proof.
  unfold Notify.intervalCallback, Notify.visibilityCallback,
    tick, handleVisibilityChange.
  split.
  - cbn zeta. destruct (Z.max 0 _ <=? 0);
      [rewrite <- (queued_onExpiry perm)|]; reflexivity.
  - destruct (negb hidden && isActive s && JS.truthy (sessionStartTime s));
      [| reflexivity].
    cbn zeta. destruct (Z.max 0 _ <=? 0);
      [rewrite <- (queued_onExpiry perm)|]; reflexivity.
Qed.

(** X15.  A firing of the interval or a visibility event sends a
    notification exactly when it changes the phase and the permission
    is "granted", and then exactly one: it announces the phase just
    begun, with the duration and the position that the state shows
    after the event. *)
Theorem notification_announces_new_phase
    (perm : string) (hidden : bool) (now t : Z) (s : State) :
  let announce (s' : State) :=
    if String.eqb perm "granted"
       && negb (Bool.eqb (isWorkSession s') (isWorkSession s))
    then [Notify.mkNotification
            (if isWorkSession s' then Notify.BreakOver else Notify.WorkComplete)
            (currentTime s') (currentPosition s')]
    else [] in
  Notify.sent (Notify.intervalCallback perm now t s)
  = announce (run (tick now t) s) /\
  Notify.sent (Notify.visibilityCallback perm hidden t s)
  = announce (run (handleVisibilityChange hidden t) s).
Proof.
  cbv zeta. split.
  - rewrite run_tick. unfold Notify.intervalCallback; cbn zeta.
    unfold remainingAt. rewrite sent_cons_queue.
    destruct (Z.max 0 _ <=? 0).
    + rewrite sent_onExpiry, commit_expire; cbn.
      destruct (isWorkSession s), (String.eqb perm "granted"); reflexivity.
    + rewrite commit_no_expire; cbn.
      rewrite Bool.eqb_reflx, andb_false_r. reflexivity.
  - unfold Notify.visibilityCallback.
    destruct (negb hidden && isActive s && JS.truthy (sessionStartTime s)) eqn:G.
    + apply andb_prop in G as [G Ht]. apply andb_prop in G as [Hh Ha].
      destruct hidden; [discriminate|].
      destruct (sessionStartTime s) as [anchor|] eqn:Hs; [|discriminate].
      cbn in Ht. apply negb_true_iff in Ht. apply Z.eqb_neq in Ht.
      rewrite (run_handleVisibilityChange t anchor s Ha Hs Ht); cbn zeta.
      unfold remainingAt; cbn [JS.to_number]. rewrite sent_cons_queue.
      destruct (Z.max 0 _ <=? 0).
      * rewrite sent_onExpiry, commit_expire; cbn.
        destruct (isWorkSession s), (String.eqb perm "granted"); reflexivity.
      * rewrite commit_no_expire; cbn.
        rewrite Bool.eqb_reflx, andb_false_r. reflexivity.
    + rewrite run_handleVisibilityChange_skip by exact G. cbn.
      rewrite Bool.eqb_reflx, andb_false_r. reflexivity.
Qed.

(** ** Properties of the countdown variant *)










(** ** The duration fields *)

Lemma parseDigits_of_uint_acc (d : Decimal.uint) (a : positive) :
  JS.parseDigits 10 (NilEmpty.string_of_uint d) (Some (Zpos a))
  = Some (Zpos (Pos.of_uint_acc d a)).
Proof.
  revert a. induction d; intros a; [reflexivity | ..];
    cbn [NilEmpty.string_of_uint JS.parseDigits Pos.of_uint_acc];
    rewrite <- IHd;
    match goal with
    | |- context [JS.digitValue ?c] =>
        let v := eval vm_compute in (JS.digitValue c) in
        change (JS.digitValue c) with v
    end;
    cbn [Z.ltb Z.compare Pos.compare Pos.compare_cont];
    do 2 f_equal; lia.
Qed.

Lemma parseDigits_of_uint (d : Decimal.uint) :
  JS.parseDigits 10 (NilEmpty.string_of_uint d) (Some 0)
  = Some (Z.of_N (Pos.of_uint d)).
Proof.
  induction d; [reflexivity | exact IHd | ..];
    cbn [NilEmpty.string_of_uint JS.parseDigits Pos.of_uint];
    match goal with
    | |- context [JS.digitValue ?c] =>
        let v := eval vm_compute in (JS.digitValue c) in
        change (JS.digitValue c) with v
    end;
    cbn [Z.ltb Z.compare Pos.compare Pos.compare_cont Z.mul Z.add Z.of_N];
    apply parseDigits_of_uint_acc.
Qed.

Lemma parseInt_digits (d : Decimal.uint) :
  d <> Decimal.Nil ->
  JS.parseInt (NilEmpty.string_of_uint d) = Some (Z.of_N (Pos.of_uint d)) /\
  JS.parseInt (String "-" (NilEmpty.string_of_uint d))
  = Some (- Z.of_N (Pos.of_uint d)).
Proof.
  intros Hd.
  assert (E : JS.parseInt (NilEmpty.string_of_uint d)
              = option_map (Z.mul 1)
                  (JS.parseDigits 10 (NilEmpty.string_of_uint d) (Some 0)) /\
              JS.parseInt (String "-" (NilEmpty.string_of_uint d))
              = option_map (Z.mul (-1))
                  (JS.parseDigits 10 (NilEmpty.string_of_uint d) (Some 0))).
  { destruct d as [| l | l | l | l | l | l | l | l | l | l];
      [contradiction | destruct l; split; reflexivity | split; reflexivity ..]. }
  destruct E as [-> ->]. rewrite parseDigits_of_uint. cbn [option_map].
  split; f_equal; lia.
Qed.

(** In this model [parseInt] reads back the text that [toString]
    prints, for every integer. *)
Lemma parseInt_toString (n : Z) : JS.parseInt (Display.toString n) = Some n.
Proof.
  destruct n as [| p | p]; [reflexivity | ..]; unfold Display.toString;
    cbn [Z.to_int NilZero.string_of_int];
    pose proof (Unsigned.to_uint_nonnil p) as Hp;
    destruct (parseInt_digits (Pos.to_uint p) Hp) as [E1 E2];
    rewrite Unsigned.of_to in E1, E2;
    unfold NilZero.string_of_uint;
    destruct (Pos.to_uint p); first [congruence | exact E1 | exact E2].
Qed.

(** X18.  Within the exact integers (2^53) the text of a non-zero
    whole number of minutes typed into a duration field is stored as
    that many minutes.  In particular each field shows its duration in
    minutes, and typing back the number a field shows leaves the
    duration as it is. *)
Theorem duration_field_round_trip (es : list Event) (m : Z) :
  Forall ExactEdit es ->
  m <> 0 ->
  Z.abs (m * 60) <= exactLimit ->
  let s := steps es initial in
  workTime (step (WorkTimeChange (Display.toString m)) s) = m * 60 /\
  breakTime (step (BreakTimeChange (Display.toString m)) s) = m * 60 /\
  workTime (step (WorkTimeChange (Display.toString (workTime s / 60))) s)
  = workTime s /\
  breakTime (step (BreakTimeChange (Display.toString (breakTime s / 60))) s)
  = breakTime s.
Proof.
  intros Hes Hm _ s.
  assert (Htyped : forall k, k <> 0 ->
            JS.or_else (JS.parseInt (Display.toString k)) 25 = k /\
            JS.or_else (JS.parseInt (Display.toString k)) 5 = k).
  { intros k Hk. rewrite parseInt_toString. unfold JS.or_else.
    destruct (Z.eqb_spec k 0); [contradiction | split; reflexivity]. }
  destruct (steps_ExactDuration es initial Hes initial_ExactDuration)
    as [(Hw & [qw Ew] & _) (Hb & [qb Eb] & _)].
  fold s in Hw, Ew, Hb, Eb.
  unfold step, handlerOf, onWorkTimeChange, onBreakTimeChange.
  rewrite !run_updateWorkTime, !run_updateBreakTime. cbn [workTime breakTime].
  assert (Hqw : workTime s / 60 = qw) by (rewrite Ew; apply Z.div_mul; discriminate).
  assert (Hqb : breakTime s / 60 = qb) by (rewrite Eb; apply Z.div_mul; discriminate).
  rewrite Hqw, Hqb.
  destruct (Htyped m Hm) as [-> ->].
  destruct (Htyped qw ltac:(lia)) as [-> _].
  destruct (Htyped qb ltac:(lia)) as [_ ->].
  repeat split; lia.
Qed.

Lemma duration_field_round_trip_witness :
  let s := steps [WorkTimeChange "45"; StartPauseClick 1000] initial in
  workTime (step (WorkTimeChange (Display.toString 50)) s) = 50 * 60 /\
  breakTime (step (BreakTimeChange (Display.toString 50)) s) = 50 * 60 /\
  workTime (step (WorkTimeChange (Display.toString (workTime s / 60))) s)
  = workTime s /\
  breakTime (step (BreakTimeChange (Display.toString (breakTime s / 60))) s)
  = breakTime s.
Proof.
  apply (duration_field_round_trip [WorkTimeChange "45"; StartPauseClick 1000] 50);
    [repeat constructor; vm_compute; discriminate
    | discriminate
    | vm_compute; discriminate].
Defined.
